(** * Chromite package uprev service and the Blink feature-policy presubmit

    A shallow embedding of

    - [third_party/chromite/service/packages.py]: the handler registry
      ([_UPREV_FUNCS], [uprevs_versioned_package], [uprev_versioned_package]),
      the line patcher [patch_ebuild_vars], the pinned-version uprev
      [uprev_ebuild_from_pin], the Chrome coordinator [uprev_chrome] and the
      generated-files check [_generate_platform_c_files];
    - [third_party/blink/public/mojom/feature_policy/PRESUBMIT.py]: the
      json5/mojom drift check [_RunJson5ConfigChecks].

    Python strings are [string]; dicts are [gmap]; the file system is a finite
    map from paths to contents; raised exceptions are values of [exn], and a
    function that can raise returns [exn + A] (or threads a state next to it). *)

From Stdlib Require Import Ascii String List Bool Arith Lia.
From stdpp Require Import base option list strings gmap.

(** ** Python strings and POSIX paths *)

Module PyStr.

Definition LF : ascii := "010"%char.
Definition DQUOTE : ascii := "034"%char.
Definition SQUOTE : ascii := "039"%char.
Definition SLASH : ascii := "/"%char.

Definition chr (c : ascii) : string := String c EmptyString.

(** [s.partition(sep)] for a one-character separator: the text before the
    first [sep], the separator itself (empty when absent), the text after. *)
Fixpoint partition (sep : ascii) (s : string) : string * string * string :=
  match s with
  | EmptyString => (EmptyString, EmptyString, EmptyString)
  | String c s' =>
      if Ascii.eqb c sep then (EmptyString, chr sep, s')
      else let '(before, eq, after) := partition sep s' in
           (String c before, eq, after)
  end.

(** [str.isspace] on the ASCII range: TAB, LF, VT, FF, CR, the four
    separators FS/GS/RS/US, and SPACE. *)
Definition isspace (c : ascii) : bool :=
  let n := nat_of_ascii c in
  ((9 <=? n) && (n <=? 13)) || ((28 <=? n) && (n <=? 32)).

Fixpoint lstrip (s : string) : string :=
  match s with
  | EmptyString => EmptyString
  | String c s' => if isspace c then lstrip s' else s
  end.

Fixpoint rstrip (s : string) : string :=
  match s with
  | EmptyString => EmptyString
  | String c s' =>
      match rstrip s' with
      | EmptyString => if isspace c then EmptyString else chr c
      | r => String c r
      end
  end.

(** [s.strip()] *)
Definition strip (s : string) : string := rstrip (lstrip s).

Fixpoint drop (n : nat) (s : string) : string :=
  match n, s with
  | O, _ => s
  | S n', String _ s' => drop n' s'
  | S _, EmptyString => EmptyString
  end.

Definition startswith (s pre : string) : bool := String.prefix pre s.

Definition endswith (s suffix : string) : bool :=
  let n := String.length s in
  let k := String.length suffix in
  (k <=? n) && String.eqb (drop (n - k) s) suffix.

Definition contains (c : ascii) (s : string) : bool :=
  existsb (Ascii.eqb c) (list_ascii_of_string s).

(** Iterating over a text file yields its lines, each with its terminating
    newline; only the last one may lack it. *)
Fixpoint readlines (s : string) : list string :=
  match s with
  | EmptyString => []
  | String c s' =>
      if Ascii.eqb c LF then chr LF :: readlines s'
      else match readlines s' with
           | [] => [chr c]
           | l :: ls => String c l :: ls
           end
  end.


(** [repr] of a list of plain strings, as [%s] prints a list:
    [['a', 'b']].  Elements are assumed free of quotes, backslashes and
    control characters, which [repr] would escape. *)
Definition repr_str (s : string) : string := chr SQUOTE +:+ s +:+ chr SQUOTE.

Fixpoint join (sep : string) (ls : list string) : string :=
  match ls with
  | [] => EmptyString
  | [x] => x
  | x :: rest => x +:+ sep +:+ join sep rest
  end.

Definition repr_list (ls : list string) : string :=
  "[" +:+ join ", " (map repr_str ls) +:+ "]".

End PyStr.

(** [posixpath] *)
Module os_path.
Import PyStr.

(** One step of [os.path.join(a, *p)]: an absolute component replaces what
    came before, otherwise it is appended after exactly one separator. *)
Definition join2 (path b : string) : string :=
  if startswith b "/" then b
  else if String.eqb path EmptyString || endswith path "/" then path +:+ b
  else path +:+ "/" +:+ b.

Definition join (a : string) (p : list string) : string := foldl join2 a p.

(** Index one past the last ['/'] of [s] ([s.rfind('/') + 1]). *)
Fixpoint rfind_slash1 (s : string) : nat :=
  match s with
  | EmptyString => 0
  | String c s' =>
      match rfind_slash1 s' with
      | O => if Ascii.eqb c SLASH then 1 else 0
      | S i => S (S i)
      end
  end.

Fixpoint take (n : nat) (s : string) : string :=
  match n, s with
  | S n', String c s' => String c (take n' s')
  | _, _ => EmptyString
  end.

Fixpoint rstrip_slash (s : string) : string :=
  match s with
  | EmptyString => EmptyString
  | String c s' =>
      match rstrip_slash s' with
      | EmptyString => if Ascii.eqb c SLASH then EmptyString else chr c
      | r => String c r
      end
  end.

Definition basename (p : string) : string := drop (rfind_slash1 p) p.

(** [head = p[:i]; if head and head != '/'*len(head): head = head.rstrip('/')] *)
Definition dirname (p : string) : string :=
  let head := take (rfind_slash1 p) p in
  match rstrip_slash head with
  | EmptyString => head
  | h => h
  end.

End os_path.

(** ** Exceptions, the file system, and effectful code *)

(** The exceptions the modelled functions raise or let through. *)
Inductive exn : Type :=
| AssertionError
| KeyError (key : string)
| OSError (path : string)
| ValueError (msg : string)
| RunCommandError (stderr : string)
| UnknownPackageError (msg : string)
| UprevError (msg : string)
| EbuildManifestError (msg : string)
| GeneratedCrosConfigFilesError (expected_files found_files : list string).

(** [GeneratedCrosConfigFilesError.__init__] builds its message from the two
    constructor arguments. *)
Definition GeneratedCrosConfigFilesError_msg (expected_files found_files : list string) : string :=
  "Expected to find generated C files: " +:+ PyStr.repr_list expected_files
  +:+ ". Actually found: " +:+ PyStr.repr_list found_files.

(** Regular files only: path to content.  A directory exists implicitly as a
    prefix of the paths below it. *)
Abbreviation FS := (gmap string string).

(** A computation over a world [W] that returns or raises. *)
Definition M (W A : Type) : Type := W -> (exn + A) * W.

Definition ret {W A} (a : A) : M W A := fun w => (inr a, w).
Definition raise {W A} (e : exn) : M W A := fun w => (inl e, w).
Definition bind {W A B} (m : M W A) (k : A -> M W B) : M W B :=
  fun w => match m w with
           | (inr a, w') => k a w'
           | (inl e, w') => (inl e, w')
           end.

Notation "'let*' x ':=' m 'in' k" := (bind m (fun x => k))
  (at level 10, x pattern, m at level 100, k at level 200).

Definition path_exists (fs : FS) (p : string) : bool :=
  match fs !! p with Some _ => true | None => false end.

(** [os.rename(src, dst)] between regular files of one directory: a missing
    source raises; renaming a file onto itself does nothing; an existing
    destination is replaced. *)
Definition os_rename (src dst : string) : M FS unit :=
  fun fs => match fs !! src with
            | None => (inl (OSError src), fs)
            | Some content => (inr tt, <[dst := content]> (delete src fs))
            end.

(** [osutils.ReadFile(path)] *)
Definition ReadFile (path : string) : M FS string :=
  fun fs => match fs !! path with
            | None => (inl (OSError path), fs)
            | Some content => (inr content, fs)
            end.

(** ** [patch_ebuild_vars] *)

Module Patch.
Import PyStr.

Definition dict_in (k : string) (d : gmap string string) : bool :=
  match d !! k with Some _ => true | None => false end.

(** The test of the loop body: [eq == '=' and varname.strip() in variables]. *)
Definition matched (variables : gmap string string) (line : string) : bool :=
  let '(varname, eq, _) := partition "=" line in
  String.eqb eq "=" && dict_in (strip varname) variables.

Definition varname_of (line : string) : string :=
  let '(varname, _, _) := partition "=" line in varname.

(** ['%s="%s"\n' % (varname, value)] *)
Definition assignment (varname value : string) : string :=
  varname +:+ "=" +:+ chr DQUOTE +:+ value +:+ chr DQUOTE +:+ chr LF.

(** One iteration: what is written to [sys.stdout], or the exception of the
    subscript [variables[varname]]. *)
Definition patch_line (variables : gmap string string) (line : string) : exn + string :=
  let '(varname, eq, _) := partition "=" line in
  if String.eqb eq "=" && dict_in (strip varname) variables then
    match variables !! varname with
    | Some value => inr (assignment varname value)
    | None => inl (KeyError varname)
    end
  else inr line.

(** The [for] loop over the lines; [stdout] is what has been written into
    the new file so far.  An exception ends the loop with the output as it
    stands. *)
Fixpoint patch_loop (variables : gmap string string) (lines : list string)
    (stdout : string) : string * option exn :=
  match lines with
  | [] => (stdout, None)
  | line :: rest =>
      match patch_line variables line with
      | inr text => patch_loop variables rest (stdout +:+ text)
      | inl e => (stdout, Some e)
      end
  end.

(** [fileinput.input(ebuild_path, inplace=1)]: the backup [<path>.bak] is
    unlinked, the file is moved to the backup and read from there while
    [sys.stdout] writes a new file at [ebuild_path]; [fileinput.close()] in
    the [finally] clause closes both and unlinks the backup, also when the
    loop body raised. *)
Definition patch_ebuild_vars (ebuild_path : string) (variables : gmap string string)
    : M FS unit :=
  fun fs =>
    let fs0 := delete (ebuild_path +:+ ".bak") fs in
    match fs !! ebuild_path with
    | None => (inl (OSError ebuild_path), fs0)
    | Some content =>
        let '(out, err) := patch_loop variables (readlines content) EmptyString in
        (match err with Some e => inl e | None => inr tt end,
         <[ebuild_path := out]> fs0)
    end.

(** Text with a newline at its end. *)
Definition ln (s : string) : string := s +:+ chr LF.

(** What the loop writes for a line when the subscript does not raise. *)
Definition patched (variables : gmap string string) (line : string) : string :=
  if matched variables line
  then assignment (varname_of line) (default EmptyString (variables !! varname_of line))
  else line.


End Patch.

(** ** [UprevVersionedPackageResult] *)

(** The namedtuple [UprevVersionedPackageModifications]. *)
Record UprevVersionedPackageModifications : Type := {
  new_version : string;
  files : list string
}.

Record UprevVersionedPackageResult : Type := {
  modified : list UprevVersionedPackageModifications
}.

(** [UprevVersionedPackageResult()] *)
Definition new_result : UprevVersionedPackageResult := {| modified := [] |}.

(** [self.modified.append(result); return self] *)
Definition add_result (new_version : string) (modified_files : list string)
    (self : UprevVersionedPackageResult) : UprevVersionedPackageResult :=
  {| modified := modified self ++ [ {| new_version := new_version; files := modified_files |} ] |}.

(** [bool(self.modified)] *)
Definition uprevved (self : UprevVersionedPackageResult) : bool :=
  match modified self with [] => false | _ :: _ => true end.

(** ** The handler registry and dispatch *)

(** Modelled from the spec: [portage_util.CPV] is declared outside the sources
    at hand; of the package identity ("a package category+name pair, the uprev
    dispatch key") only the attribute [cp] is read. *)
Record CPV : Type := { cp : string }.

Module Registry.
Section Handlers.
(** The arguments every handler takes, the world it acts on and what it
    returns are left open: registration and dispatch do not look at them. *)
Context {BuildTargets Refs Chroot W Res : Type}.

Definition Handler : Type := BuildTargets -> Refs -> Chroot -> M W Res.

(** The decorator returns [pass_through], which calls [func]. *)
Definition pass_through (func : Handler) : Handler :=
  fun build_targets refs chroot => func build_targets refs chroot.

(** The inner [register(func)]: [_UPREV_FUNCS[package] = func], then the
    wrapper is returned.  The dict is the first component. *)
Definition register (package : string) (func : Handler)
    (_UPREV_FUNCS : gmap string Handler) : gmap string Handler * Handler :=
  (<[package := func]> _UPREV_FUNCS, pass_through func).

(** [uprevs_versioned_package(package)]: [assert package] (an empty string
    is falsy), then the registering closure. *)
Definition uprevs_versioned_package (package : string)
    : exn + (Handler -> gmap string Handler -> gmap string Handler * Handler) :=
  if String.eqb package EmptyString then inl AssertionError
  else inr (register package).

(** ['Package "%s" does not have a registered handler.' % package.cp] *)
Definition unknown_package_msg (cp : string) : string :=
  "Package " +:+ PyStr.chr PyStr.DQUOTE +:+ cp +:+ PyStr.chr PyStr.DQUOTE
  +:+ " does not have a registered handler.".

(** [uprev_versioned_package(package, build_targets, refs, chroot)];
    [None] is the one falsy value a caller can pass for [package]. *)
Definition uprev_versioned_package (_UPREV_FUNCS : gmap string Handler)
    (package : option CPV) (build_targets : BuildTargets) (refs : Refs)
    (chroot : Chroot) : M W Res :=
  match package with
  | None => raise AssertionError
  | Some package =>
      match _UPREV_FUNCS !! cp package with
      | None => raise (UnknownPackageError (unknown_package_msg (cp package)))
      | Some func => func build_targets refs chroot
      end
  end.

End Handlers.
End Registry.

(** ** Listing the ebuilds of a package directory *)

Module portage_util.
Import PyStr.

(** A directory path as the prefix of the paths of its entries. *)
Definition dir_prefix (d : string) : string :=
  if String.eqb d EmptyString || endswith d "/" then d else d +:+ "/".

Fixpoint strip_prefix (pre s : string) : option string :=
  match pre, s with
  | EmptyString, _ => Some s
  | String a pre', String b s' =>
      if Ascii.eqb a b then strip_prefix pre' s' else None
  | String _ _, EmptyString => None
  end.

(** The name under which the file [p] appears in directory [d], if it lies
    directly in it. *)
Definition entry_of (d p : string) : option string :=
  match strip_prefix (dir_prefix d) p with
  | Some e => if String.eqb e EmptyString || contains SLASH e then None else Some e
  | None => None
  end.

(** [os.listdir(d)], files only, in the arbitrary order of the map. *)
Definition listdir (fs : FS) (d : string) : list string :=
  omap (entry_of d) (map fst (map_to_list fs)).

(** Modelled from the spec: [portage_util.EBuild.List] is not among the
    sources.  The spec's overlay scanner [list_ebuilds(package_root)]
    enumerates the package description files of a directory; here, the
    joined paths of the directory entries that end in [.ebuild]. *)
Definition EBuild_List (fs : FS) (package_dir : string) : list string :=
  map (fun entry => os_path.join package_dir [entry])
      (List.filter (fun entry => endswith entry ".ebuild") (listdir fs package_dir)).

End portage_util.

(** ** [uprev_ebuild_from_pin] *)

Module Pin.
Section Pin.
Import PyStr.

(** [constants.SOURCE_ROOT], [constants.CHROOT_SOURCE_ROOT] *)
Variables SOURCE_ROOT CHROOT_SOURCE_ROOT : string.
Variable Chroot : Type.
(** [portage_util.UpdateEbuildManifest(ebuild_path, chroot=chroot)]: an
    external [ebuild ... manifest] run that acts on the file system and may
    raise [RunCommandError]. *)
Variable UpdateEbuildManifest : string -> Chroot -> M FS unit.

(** [try: ... except cros_build_lib.RunCommandError as e: raise
    EbuildManifestError(...)]; any other exception passes through. *)
Definition manifest_or_error (package : string) (m : M FS unit) : M FS unit :=
  fun fs =>
    match m fs with
    | (inl (RunCommandError stderr), fs') =>
        (inl (EbuildManifestError
                ("Unable to update manifest for " +:+ package +:+ ": " +:+ stderr)), fs')
    | r => r
    end.

Definition uprev_ebuild_from_pin (package_path version_pin_path : string)
    (chroot : Chroot) : M FS UprevVersionedPackageResult :=
  let package := os_path.basename package_path in
  let package_src_path := os_path.join SOURCE_ROOT [package_path] in
  let* ebuild_paths := (fun fs => (inr (portage_util.EBuild_List fs package_src_path), fs)) in
  match ebuild_paths with
  | [] => raise (UprevError ("No ebuilds found for " +:+ package))
  | _ :: _ :: _ => raise (UprevError ("Multiple ebuilds found for " +:+ package))
  | [ebuild_path] =>
      let version_pin_src_path := os_path.join SOURCE_ROOT [version_pin_path] in
      let* pin := ReadFile version_pin_src_path in
      let version := strip pin in
      let new_ebuild_path :=
        os_path.join package_path [package +:+ "-" +:+ version +:+ "-r1.ebuild"] in
      let new_ebuild_src_path := os_path.join SOURCE_ROOT [new_ebuild_path] in
      let* _ := os_rename ebuild_path new_ebuild_src_path in
      let manifest_src_path := os_path.join package_src_path ["Manifest"] in
      let new_ebuild_chroot_path := os_path.join CHROOT_SOURCE_ROOT [new_ebuild_path] in
      let* _ := manifest_or_error package
                  (UpdateEbuildManifest new_ebuild_chroot_path chroot) in
      ret (add_result version [new_ebuild_src_path; ebuild_path; manifest_src_path]
                      new_result)
  end.

End Pin.
End Pin.

(** ** [uprev_chrome] *)

(** Modelled from the spec: [uprev_lib.GitRef] is declared outside the sources
    at hand ("a tag/branch reference used as an uprev trigger": path and
    revision/tag string). *)
Record GitRef : Type := { path : string; ref : string; revision : string }.

Fixpoint for_each {W A} (xs : list A) (body : A -> M W unit) : M W unit :=
  match xs with
  | [] => ret tt
  | x :: rest => let* _ := body x in for_each rest body
  end.

Module Chrome.
Section Chrome.
Variables BuildTargets Chroot : Type.
(** [constants.CHROME_CP], [constants.OTHER_CHROME_PACKAGES] *)
Variable CHROME_CP : string.
Variable OTHER_CHROME_PACKAGES : list string.

(** The collaborator [uprev_lib]: the world [W] holds whatever a
    [UprevChromeManager] reads and writes (its fields, the overlay). *)
Variable W : Type.
Variable get_chrome_version_from_refs : list GitRef -> exn + string.
(** The constructor [UprevChromeManager(version, build_targets=, chroot=)]. *)
Variable UprevChromeManager : string -> BuildTargets -> Chroot -> W -> W.
(** [uprev_manager.uprev(package)]; the boolean is the truth value of what
    it returns, the only thing [uprev_chrome] looks at. *)
Variable uprev : string -> M W bool.
(** [uprev_manager.modified_ebuilds] *)
Variable modified_ebuilds : W -> list string.

(** The coordinator's world: the manager's, and the packages whose uprev has
    been called so far, in call order. *)
Record St : Type := { world : W; calls : list string }.

Definition call_uprev (package : string) : M St bool :=
  fun st =>
    let '(r, w') := uprev package (world st) in
    (r, {| world := w'; calls := calls st ++ [package] |}).

Definition lift {A} (r : exn + A) : M St A := fun st => (r, st).

Definition uprev_chrome (build_targets : BuildTargets) (refs : list GitRef)
    (chroot : Chroot) : M St UprevVersionedPackageResult :=
  let* chrome_version := lift (get_chrome_version_from_refs refs) in
  let* _ := (fun st =>
               (inr tt, {| world := UprevChromeManager chrome_version build_targets
                                      chroot (world st);
                           calls := calls st |})) in
  let result := new_result in
  let* ok := call_uprev CHROME_CP in
  if negb ok then ret result
  else
    let* _ := for_each OTHER_CHROME_PACKAGES
                (fun package => let* _ := call_uprev package in ret tt) in
    let* ebuilds := (fun st => (inr (modified_ebuilds (world st)), st)) in
    ret (add_result chrome_version ebuilds result).

End Chrome.
End Chrome.

(** A stand-in manager for running [uprev_chrome]: every uprev succeeds and
    puts the package on the manager's version, except for the packages listed
    in [forced], which land on the version given there. *)
Module MockManager.

Record t : Type := {
  version : string;
  forced : gmap string string;
  landed : gmap string string;
  ebuilds : list string
}.

Definition make (forced : gmap string string) (version : string)
    (_ : unit) (_ : unit) (_ : t) : t :=
  {| version := version; forced := forced; landed := ∅; ebuilds := [] |}.

Definition uprev (package : string) : M t bool :=
  fun m =>
    let v := default (version m) (forced m !! package) in
    (inr true,
     {| version := version m; forced := forced m;
        landed := <[package := v]> (landed m);
        ebuilds := ebuilds m ++ [package +:+ "-" +:+ v +:+ "_rc-r1.ebuild"] |}).

(** A manager whose primary uprev finds nothing to do. *)
Definition uprev_unchanged (package : string) : M t bool :=
  fun m => (inr false, m).

Definition version_of_refs (refs : list GitRef) : exn + string :=
  match refs with
  | [] => inl AssertionError
  | r :: _ => inr (revision r)
  end.

Definition blank : t :=
  {| version := EmptyString; forced := ∅; landed := ∅; ebuilds := [] |}.

End MockManager.

(** ** [_generate_platform_c_files] *)

(** The fields of [replication_config_pb2.FileReplicationRule] and
    [ReplicationConfig] that are read here. *)
Record FileReplicationRule : Type := {
  source_path : string;
  destination_path : string
}.

Record ReplicationConfig : Type := {
  file_replication_rules : list FileReplicationRule
}.

Module Generate.
Section Generate.
Import PyStr.

Variables SOURCE_ROOT CHROOT_SOURCE_ROOT : string.
Variable Chroot : Type.
Variable get_enter_args : Chroot -> list string.
(** [cros_build_lib.run(command, enter_chroot=True, chroot_args=...)]: the
    external generator, acting on the file system. *)
Variable run : list string -> list string -> M FS unit.
(** The text a [ReplicationConfig] message prints as under [%s]. *)
Variable repr_config : ReplicationConfig -> string.

Definition expected_c_files : list string := ["config.c"; "ec_config.c"; "ec_config.h"].

(** The comprehension selecting the [build_config.json] destinations. *)
Definition build_config_paths (replication_config : ReplicationConfig) : list string :=
  List.filter (fun p => endswith p "build_config.json")
    (map destination_path (file_replication_rules replication_config)).

(** The loop collecting the expected files that exist. *)
Definition collect_generated (fs : FS) (generated_output_dir : string) : list string :=
  map (fun f => os_path.join generated_output_dir [f])
    (List.filter
       (fun f => path_exists fs (os_path.join SOURCE_ROOT [generated_output_dir; f]))
       expected_c_files).

(** The [command] list handed to [cros_build_lib.run]. *)
Definition cros_config_schema_command (build_config_path : string) : list string :=
  let build_config_chroot_path :=
    os_path.join CHROOT_SOURCE_ROOT [build_config_path] in
  let generated_output_chroot_dir :=
    os_path.join CHROOT_SOURCE_ROOT [os_path.dirname build_config_path] in
  ["cros_config_schema"; "-m"; build_config_chroot_path; "-g";
   generated_output_chroot_dir; "-f"; chr DQUOTE +:+ "TRUE" +:+ chr DQUOTE].

Definition _generate_platform_c_files (replication_config : ReplicationConfig)
    (chroot : Chroot) : M FS (list string) :=
  match build_config_paths replication_config with
  | [] => ret []
  | _ :: _ :: _ =>
      raise (ValueError
               ("Expected at most one build_config.json destination path. "
                +:+ "Replication config: " +:+ repr_config replication_config))
  | [build_config_path] =>
      let command := cros_config_schema_command build_config_path in
      let* _ := run command (get_enter_args chroot) in
      let generated_output_dir := os_path.dirname build_config_path in
      let* generated_files :=
        (fun fs => (inr (collect_generated fs generated_output_dir), fs)) in
      if negb (length expected_c_files =? length generated_files)
      then raise (GeneratedCrosConfigFilesError expected_c_files generated_files)
      else ret generated_files
  end.

End Generate.
End Generate.

(** ** The feature-policy presubmit: [_RunJson5ConfigChecks] *)

Module Presubmit.
Import PyStr.

(** The two kinds of Python values that meet in the check's last
    comparison.  [==] between a set and a string is [False]. *)
Inductive PyVal : Type :=
| PySet (s : gset string)
| PyString (s : string).

Definition py_eq (a b : PyVal) : bool :=
  match a, b with
  | PySet x, PySet y => bool_decide (x = y)
  | PyString x, PyString y => String.eqb x y
  | _, _ => false
  end.

(** [output_api.PresubmitPromptWarning(message, items=...)] *)
Record PresubmitPromptWarning : Type := {
  message : string;
  items : list string
}.

(** What the check reads from its surroundings: the local paths of the
    affected files, the values of the dict that [ReadHistogramValues]
    returns for a mojom file, and the feature dicts under ['data'] of the
    loaded json5 file.  Either read may raise. *)
Record input_api : Type := {
  AffectedFiles : list string;
  ReadHistogramValues : string -> exn + list string;
  json5_data : string -> exn + list (gmap string string)
}.

Definition mojom_source_path : string :=
  os_path.join "third_party"
    ["blink"; "public"; "mojom"; "feature_policy"; "feature_policy_feature.mojom"].

Definition json5_config_path : string :=
  os_path.join "third_party"
    ["blink"; "renderer"; "core"; "feature_policy"; "feature_policy_features.json5"].

(** [feature['name']] for every feature, in order. *)
Fixpoint feature_names (features : list (gmap string string)) : exn + list string :=
  match features with
  | [] => inr []
  | feature :: rest =>
      match feature !! "name" with
      | None => inl (KeyError "name")
      | Some name =>
          match feature_names rest with
          | inl e => inl e
          | inr names => inr (name :: names)
          end
      end
  end.

(** The text [{} are missing in ...] formatted with [list(s)] when [s] is
    not empty, the empty text otherwise. *)
Definition missing_message (s : gset string) (what : string) : string :=
  if bool_decide (s = ∅) then EmptyString
  else repr_list (elements s) +:+ " are missing in " +:+ what +:+ "." +:+ chr LF.

Definition out_of_sync (json5_messages mojom_messages : string) : string :=
  json5_config_path +:+ " and " +:+ mojom_source_path +:+ " are out of sync: "
  +:+ json5_messages +:+ mojom_messages.

Definition _RunJson5ConfigChecks (api : input_api)
    : exn + list PresubmitPromptWarning :=
  let affected_paths : gset string := list_to_set (AffectedFiles api) in
  if bool_decide (mojom_source_path ∉ affected_paths)
     && bool_decide (json5_config_path ∉ affected_paths)
  then inr []
  else
    match ReadHistogramValues api mojom_source_path with
    | inl e => inl e
    | inr values =>
        let mojom_enums : gset string := list_to_set values ∖ {["NotFound"]} in
        match json5_data api json5_config_path with
        | inl e => inl e
        | inr features =>
            match feature_names features with
            | inl e => inl e
            | inr names =>
                let json5_enums : gset string := list_to_set names in
                let json5_missing_enums := mojom_enums ∖ json5_enums in
                let mojom_missing_enums := json5_enums ∖ mojom_enums in
                let json5_messages := missing_message json5_missing_enums "json5 config" in
                let mojom_messages := missing_message mojom_missing_enums "mojom file" in
                if py_eq (PySet json5_enums) (PyString mojom_source_path) then inr []
                else inr [ {| message := out_of_sync json5_messages mojom_messages;
                              items := [mojom_source_path; json5_config_path] |} ]
            end
        end
    end.

(** The enum sets the check computes, for stating when they agree. *)
Definition mojom_enums_of (values : list string) : gset string :=
  list_to_set values ∖ {["NotFound"]}.
Definition json5_enums_of (names : list string) : gset string :=
  list_to_set names.

End Presubmit.

(** ** Concrete inputs *)

Module Scenario.
Import PyStr Patch.

(** *** A kernel ebuild whose assignment is indented *)
Definition indented_line : string := ln "  AFDO_PROFILE_VERSION='R83'".
Definition indented_ebuild : string :=
  ln "# Copyright" +:+ indented_line +:+ ln "KEYWORDS='*'".
Definition afdo_vars : gmap string string := {[ "AFDO_PROFILE_VERSION" := "R84" ]}.
Definition kernel_fs : FS := {[ "kernel-9999.ebuild" := indented_ebuild ]}.

(** The same ebuild with the assignment at the start of its line. *)
Definition flush_ebuild : string :=
  ln "# Copyright" +:+ ln "AFDO_PROFILE_VERSION='R83' # profile" +:+ ln "KEYWORDS='*'".

(** *** Two handlers for one identity *)
Definition first_handler : Registry.Handler (W := unit) :=
  fun (_ _ _ : unit) => ret "first".
Definition second_handler : Registry.Handler (W := unit) :=
  fun (_ _ _ : unit) => ret "second".

(** A handler that leaves its name in the world when it is called. *)
Definition spy (name : string) : Registry.Handler (W := list string) :=
  fun (_ _ _ : unit) calls => (inr name, calls ++ [name]).
Definition spies : gmap string (Registry.Handler (W := list string)) :=
  {[ "chromeos-base/chromeos-chrome" := spy "chrome";
     "afdo/kernel-profiles" := spy "afdo" ]}.
End Scenario.

Module ChromeScenario.
Definition CHROME_CP : string := "chromeos-base/chromeos-chrome".
Definition OTHER_CHROME_PACKAGES : list string :=
  ["chromeos-base/chromium-source"; "chromeos-base/chrome-icu"].

Definition tag : GitRef :=
  {| path := "/chromium/src"; ref := "refs/tags/84.0.4147.0"; revision := "84.0.4147.0" |}.

(** The follower [chrome-icu] is made to land on another version. *)
Definition mismatch : gmap string string :=
  {[ "chromeos-base/chrome-icu" := "83.0.4103.97" ]}.

Definition start : Chrome.St MockManager.t :=
  {| Chrome.world := MockManager.blank; Chrome.calls := [] |}.

Definition run_mismatch :=
  Chrome.uprev_chrome unit unit CHROME_CP OTHER_CHROME_PACKAGES MockManager.t
    MockManager.version_of_refs (MockManager.make mismatch) MockManager.uprev
    MockManager.ebuilds tt [tag] tt start.

Definition run_unchanged :=
  Chrome.uprev_chrome unit unit CHROME_CP OTHER_CHROME_PACKAGES MockManager.t
    MockManager.version_of_refs (MockManager.make ∅) MockManager.uprev_unchanged
    MockManager.ebuilds tt [tag] tt start.
End ChromeScenario.

Module PresubmitScenario.
Import Presubmit.

(** The mojom enum and the json5 config list the same two features. *)
Definition mojom_values : list string := ["NotFound"; "Camera"; "Fullscreen"].
Definition json5_features : list (gmap string string) :=
  [ {[ "name" := "Fullscreen" ]}; {[ "name" := "Camera"; "depends_on" := "[]" ]} ].

Definition in_sync : input_api :=
  {| AffectedFiles := [json5_config_path];
     ReadHistogramValues := fun _ => inr mojom_values;
     json5_data := fun _ => inr json5_features |}.
End PresubmitScenario.

Module PinScenario.
Import PyStr Patch os_path.

Definition SOURCE_ROOT : string := "/cros".
Definition package_path : string := "overlay/foo".
Definition version_pin_path : string := "overlay/foo/VERSION-PIN".

(** The package directory holds [foo-1.2.3.ebuild] and the pin [1.2.4]. *)
Definition before : FS :=
  {[ "/cros/overlay/foo/foo-1.2.3.ebuild" := ln "EAPI=7";
     "/cros/overlay/foo/VERSION-PIN" := ln "1.2.4" ]}.

(** A manifest run that succeeds and writes the [Manifest] next to the
    ebuild it is given. *)
Definition manifest_tool (ebuild_path : string) (_ : unit) : M FS unit :=
  fun fs => (inr tt, <[join (dirname ebuild_path) ["Manifest"] := ln "DIST"]> fs).

Definition run : M FS UprevVersionedPackageResult :=
  Pin.uprev_ebuild_from_pin SOURCE_ROOT SOURCE_ROOT unit manifest_tool
    package_path version_pin_path tt.

(** The file system the first run leaves behind. *)
Definition after_first : FS := (run before).2.

Definition package_src_path : string := join SOURCE_ROOT [package_path].
Definition old_ebuild : string := join package_src_path ["foo-1.2.3.ebuild"].
Definition new_ebuild_path : string := join package_path ["foo-1.2.4-r1.ebuild"].
Definition new_ebuild : string := join SOURCE_ROOT [new_ebuild_path].
Definition manifest : string := join package_src_path ["Manifest"].
Definition renamed : FS := (os_rename old_ebuild new_ebuild before).2.
Definition regenerated : FS :=
  (manifest_tool (join SOURCE_ROOT [new_ebuild_path]) tt renamed).2.

(** The record of a run that finds the ebuild already under its new name. *)
Definition pinned : UprevVersionedPackageModifications :=
  {| new_version := "1.2.4";
     files := ["/cros/overlay/foo/foo-1.2.4-r1.ebuild";
               "/cros/overlay/foo/foo-1.2.4-r1.ebuild";
               "/cros/overlay/foo/Manifest"] |}.
End PinScenario.

Module GenerateScenario.
Definition SOURCE_ROOT : string := "/cros".
Definition CHROOT_SOURCE_ROOT : string := "/mnt/host/source".

Definition config : ReplicationConfig :=
  {| file_replication_rules :=
       [ {| source_path := "private/config.json";
            destination_path := "overlay/files/build_config.json" |} ] |}.

(** A generator run that leaves [ec_config.h] out. *)
Definition two_of_three (command args : list string) : M FS unit :=
  fun fs => (inr tt, <["/cros/overlay/files/config.c" := "c"]>
                       (<["/cros/overlay/files/ec_config.c" := "c"]> fs)).

Definition generate (run : list string -> list string -> M FS unit) : M FS (list string) :=
  Generate._generate_platform_c_files SOURCE_ROOT CHROOT_SOURCE_ROOT unit (fun _ => [])
    run (fun _ => "file_replication_rules {...}") config tt.
End GenerateScenario.

(** ** [_get_private_overlay_package_root] and [replicate_private_config] *)

Module Replicate.
Import PyStr.

(** The class [[\w-]] on ASCII text. *)
Definition is_word_dash (c : ascii) : bool :=
  let n := nat_of_ascii c in
  ((48 <=? n) && (n <=? 57)) || ((65 <=? n) && (n <=? 90))
  || ((97 <=? n) && (n <=? 122)) || (n =? 95) || (n =? 45).

Fixpoint take_while (p : ascii -> bool) (s : string) : string :=
  match s with
  | EmptyString => EmptyString
  | String c s' => if p c then String c (take_while p s') else EmptyString
  end.

(** The longest beginning of [s] that is followed by [needle], if any. *)
Fixpoint longest_before (needle s : string) : option string :=
  match s with
  | EmptyString => None
  | String c s' =>
      match longest_before needle s' with
      | Some before => Some (String c before)
      | None => if startswith s needle then Some EmptyString else None
      end
  end.

Definition private_overlay_ref_pattern : string :=
  "/chromeos\/overlays\/overlay-([\w-]+)-private".

(** [re.match(private_overlay_ref_pattern, path)] and [match.group(1)].  The
    match is anchored at the start only.  The greedy group first takes the
    whole run of word and dash characters and gives characters back until
    [-private] follows; all of [-private] is in the class, so it lies inside
    that run, and the group is its longest non-empty beginning that
    [-private] follows. *)
Definition match_private_overlay (path : string) : option string :=
  match portage_util.strip_prefix "/chromeos/overlays/overlay-" path with
  | None => None
  | Some rest =>
      match longest_before "-private" (take_while is_word_dash rest) with
      | Some (String c group) => Some (String c group)
      | _ => None
      end
  end.

Section Replicate.
Variables SOURCE_ROOT CHROOT_SOURCE_ROOT : string.
Variable Chroot : Type.
Variable get_enter_args : Chroot -> list string.
Variable run : list string -> list string -> M FS unit.
Variable repr_config : ReplicationConfig -> string.
(** The text of a [GitRef] and of a list of them under [%s]. *)
Variable repr_ref : GitRef -> string.
Variable repr_refs : list GitRef -> string.
(** [json_format.Parse(text, replication_config_pb2.ReplicationConfig())] *)
Variable Parse : string -> exn + ReplicationConfig.
(** [replication_lib.Replicate(replication_config)] *)
Variable Replicate : ReplicationConfig -> M FS unit.

Definition _get_private_overlay_package_root (ref : GitRef) (package : string)
    : exn + string :=
  match match_private_overlay (path ref) with
  | None =>
      inl (ValueError ("ref.path must match the pattern: " +:+ private_overlay_ref_pattern
                       +:+ ". Actual ref: " +:+ repr_ref ref))
  | Some overlay =>
      inr (os_path.join SOURCE_ROOT
             ["src/private-overlays/overlay-" +:+ overlay +:+ "-private"; package])
  end.

(** [os.path.isabs] *)
Definition isabs (p : string) : bool := startswith p "/".

(** The [try] block: reading and parsing the config; an [IOError] from it
    becomes the [ValueError], anything else passes through. *)
Definition read_replication_config (replication_config_path : string)
    : M FS ReplicationConfig :=
  fun fs =>
    match (let* text := ReadFile replication_config_path in
           fun fs' => (Parse text, fs')) fs with
    | (inl (OSError _), fs') =>
        (inl (ValueError ("Expected ReplicationConfig missing at "
                          +:+ replication_config_path)), fs')
    | r => r
    end.

(** The last loop: every path is asserted to be relative and replaced by its
    join with the source root. *)
Fixpoint absolute_paths (modified_files : list string) : exn + list string :=
  match modified_files with
  | [] => inr []
  | modified_file :: rest =>
      if isabs modified_file then inl AssertionError
      else match absolute_paths rest with
           | inl e => inl e
           | inr done => inr (os_path.join SOURCE_ROOT [modified_file] :: done)
           end
  end.

Definition replicate_private_config (refs : list GitRef) (chroot : Chroot)
    : M FS UprevVersionedPackageResult :=
  let package := "chromeos-base/chromeos-config-bsp" in
  match refs with
  | [ref0] =>
      match _get_private_overlay_package_root ref0 package with
      | inl e => raise e
      | inr package_root =>
          let replication_config_path :=
            os_path.join package_root ["replication_config.jsonpb"] in
          let* replication_config := read_replication_config replication_config_path in
          let* _ := Replicate replication_config in
          let modified_files :=
            map destination_path (file_replication_rules replication_config) in
          let* generated :=
            Generate._generate_platform_c_files SOURCE_ROOT CHROOT_SOURCE_ROOT Chroot
              get_enter_args run repr_config replication_config chroot in
          let modified_files := modified_files ++ generated in
          let new_private_version := revision ref0 in
          match absolute_paths modified_files with
          | inl e => raise e
          | inr modified_files =>
              ret (add_result new_private_version modified_files new_result)
          end
      end
  | _ => raise (ValueError ("Expected exactly one ref, actual " +:+ repr_refs refs))
  end.

End Replicate.
End Replicate.

(** ** More of [packages.py]: version lookups and tool wrappers *)

(** The remaining exceptions of the module and the built-in ones its code
    runs into, next to those of [exn]. *)
Inductive error : Type :=
| Raised (e : exn)
| NoAndroidVersionError (msg : string)
| NoAndroidTargetError (msg : string)
| AndroidIsPinnedUprevError (new_android_atom : string)
| AttributeError
| TypeError.

(** A Python value that is [None] or a string; [None] and the empty string are
    the false ones. *)
Definition truthy (o : option string) : bool :=
  match o with
  | Some (String _ _) => true
  | _ => false
  end.

(** [a or b] *)
Definition py_or (a b : option string) : option string := if truthy a then a else b.

(** [%s] of a string or [None]. *)
Definition py_str (o : option string) : string := default "None" o.

(** [str.splitlines()] on ASCII text: the line boundaries are LF, CR, CR LF,
    VT, FF, FS, GS and RS; boundaries are dropped and a boundary at the end
    opens no further line. *)
Module PyLines.
Import PyStr.

Definition is_boundary (c : ascii) : bool :=
  let n := nat_of_ascii c in
  ((10 <=? n) && (n <=? 13)) || ((28 <=? n) && (n <=? 30)).

Definition CR : ascii := "013"%char.

Fixpoint splitlines (s : string) : list string :=
  match s with
  | EmptyString => []
  | String c s' =>
      if is_boundary c then
        match s' with
        | String c' s'' =>
            if Ascii.eqb c CR && Ascii.eqb c' LF then EmptyString :: splitlines s''
            else EmptyString :: splitlines s'
        | EmptyString => [EmptyString]
        end
      else match splitlines s' with
           | [] => [chr c]
           | l :: ls => String c l :: ls
           end
  end.

(** The text after the first occurrence of [needle], if there is one. *)
Fixpoint find_after (needle s : string) : option string :=
  if startswith s needle then Some (drop (String.length needle) s)
  else match s with
       | EmptyString => None
       | String _ s' => find_after needle s'
       end.

(** [needle in s] *)
Definition occurs (needle s : string) : bool :=
  match find_after needle s with Some _ => true | None => false end.

(** The text up to the next newline: what [.*] matches. *)
Fixpoint rest_of_line (s : string) : string :=
  match s with
  | EmptyString => EmptyString
  | String c s' => if Ascii.eqb c LF then EmptyString else String c (rest_of_line s')
  end.

(** [s.split('\n\n')] *)
Fixpoint split_blank_line (s : string) : list string :=
  match s with
  | EmptyString => [EmptyString]
  | String c s' =>
      match s' with
      | String c' s'' =>
          if Ascii.eqb c LF && Ascii.eqb c' LF then EmptyString :: split_blank_line s''
          else match split_blank_line s' with
               | [] => [chr c]
               | l :: ls => String c l :: ls
               end
      | EmptyString => [chr c]
      end
  end.

End PyLines.

(** Modelled from the spec: [build_target_lib.BuildTarget] is declared outside
    the sources at hand; its attributes [name] and [root] are what is read
    here. *)
Record BuildTarget : Type := { name : string; root : string }.

(** Modelled from the spec: of the package identity that
    [portage_util.SplitCPV] and [PortageqBestVisible] return, the version
    attributes read here; each is a string or [None]. *)
Record PackageVersion : Type := {
  version : option string;
  version_no_rev : option string
}.

Module Versions.
Import PyStr.
Section Versions.
(** [portage_util.GetPackageDependencies(board, package)] *)
Variable GetPackageDependencies : string -> string -> exn + list string.
(** [portage_util.SplitCPV(package)]: the parsed identity or [None]. *)
Variable SplitCPV : string -> exn + option PackageVersion.
(** [portage_util.PortageqBestVisible(atom, board, cwd=...)] *)
Variable PortageqBestVisible : string -> string -> exn + PackageVersion.
(** [constants.CHROME_CP] *)
Variable CHROME_CP : string.

Definition is_android_package (package : string) : bool :=
  startswith package "chromeos-base/android-container-"
  || startswith package "chromeos-base/android-vm-".

(** The first package of the dependency list with one of the two prefixes;
    [None] when portage fails or there is none. *)
Definition determine_android_package (board : string) : exn + option string :=
  match GetPackageDependencies board "virtual/target-os" with
  | inl (RunCommandError _) => inr None
  | inl e => inl e
  | inr packages => inr (List.find is_android_package packages)
  end.

Definition determine_android_target (board : string) : error + option string :=
  match determine_android_package board with
  | inl (RunCommandError _) =>
      inl (NoAndroidTargetError ("Android Target could not be determined for " +:+ board))
  | inl e => inl (Raised e)
  | inr android_package =>
      if negb (truthy android_package) then inr None
      else
        let android_package := py_str android_package in
        if startswith android_package "chromeos-base/android-vm-" then inr (Some "bertha")
        else if startswith android_package "chromeos-base/android-container-"
        then inr (Some "cheets")
        else inl (NoAndroidTargetError
                    ("Android Target cannot be determined for the package: "
                     +:+ android_package))
  end.

(** The loop of [determine_android_version]; [version] is the version seen so
    far, [boards] the whole argument, for the message. *)
Fixpoint android_version_loop (boards : list string) (todo : list string)
    (version : option string) : error + option string :=
  match todo with
  | [] => inr version
  | board :: rest =>
      match determine_android_package board with
      | inl e => inl (Raised e)
      | inr package =>
          if negb (truthy package) then inr None
          else
            match SplitCPV (py_str package) with
            | inl e => inl (Raised e)
            | inr None =>
                inl (NoAndroidVersionError
                       ("Android version could not be determined for " +:+ board))
            | inr (Some cpv) =>
                if negb (truthy version)
                then android_version_loop boards rest (version_no_rev cpv)
                else if negb (bool_decide (version = version_no_rev cpv))
                then inl (NoAndroidVersionError
                            ("Different Android versions (" +:+ py_str version +:+ " vs "
                             +:+ py_str (version_no_rev cpv) +:+ ") for "
                             +:+ repr_list boards))
                else android_version_loop boards rest version
            end
      end
  end.

(** [boards] is a list or [None]. *)
Definition determine_android_version (boards : option (list string))
    : error + option string :=
  match boards with
  | None | Some [] => inr None
  | Some boards => android_version_loop boards boards None
  end.

(** [cpv.version_no_rev.partition('_')[0]]; [None] has no [partition]. *)
Definition determine_chrome_version (build_target : BuildTarget) : error + option string :=
  match PortageqBestVisible CHROME_CP (name build_target) with
  | inl (RunCommandError _) => inr None
  | inl e => inl (Raised e)
  | inr cpv =>
      match version_no_rev cpv with
      | None => inl AttributeError
      | Some text => let '(before, _, _) := partition "_" text in inr (Some before)
      end
  end.

(** The board's Android package parses and has the version [v]. *)
Definition board_has_version (board v : string) : Prop :=
  exists package cpv,
    determine_android_package board = inr (Some package)
    /\ truthy (Some package) = true
    /\ SplitCPV package = inr (Some cpv)
    /\ version_no_rev cpv = Some v.

End Versions.
End Versions.

(** ** Firmware versions *)

Record FirmwareVersions : Type := {
  model : option string;
  main : option string;
  main_rw : option string;
  ec : option string;
  ec_rw : option string
}.

Record MainEcFirmwareVersions : Type := {
  main_fw_version : option string;
  ec_fw_version : option string
}.

Module Firmware.
Import PyStr PyLines.

(** [re.search] for a pattern made of a literal label, [\s*] and a named
    group taking the rest of the line, and the text of that group: the first
    occurrence of the label, any white space after it (line ends too), then
    the text up to the next newline. *)
Definition search_field (label cmd_output : string) : option string :=
  match find_after label cmd_output with
  | Some after => Some (rest_of_line (lstrip after))
  | None => None
  end.

Definition _find_firmware_versions (cmd_output : string) : FirmwareVersions :=
  {| model := search_field "Model:" cmd_output;
     main := search_field "BIOS version:" cmd_output;
     main_rw := search_field "BIOS (RW) version:" cmd_output;
     ec := search_field "EC version:" cmd_output;
     ec_rw := search_field "EC (RW) version:" cmd_output |}.

Section Firmware.
(** [cros_build_lib.IsInsideChroot()] *)
Variable IsInsideChroot : bool.
(** [cros_build_lib.run([updater, '-V'], capture_output=True, ...).stdout] *)
Variable run_updater : string -> exn + string.

Definition AssertInsideChroot {A} (k : exn + A) : exn + A :=
  if IsInsideChroot then k else inl AssertionError.

Definition _get_firmware_version_cmd_result (build_target : BuildTarget) : exn + string :=
  let updater := os_path.join (root build_target) ["usr/sbin/chromeos-firmwareupdate"] in
  run_updater updater.

(** The loop over the payloads: [result[firmware_version.model] = ...] for
    every payload that mentions [BIOS]. *)
Fixpoint collect_firmware (payloads : list string)
    (result : gmap (option string) FirmwareVersions)
    : gmap (option string) FirmwareVersions :=
  match payloads with
  | [] => result
  | firmware_version_payload :: rest =>
      if occurs "BIOS" firmware_version_payload then
        let firmware_version := _find_firmware_versions firmware_version_payload in
        collect_firmware rest (<[model firmware_version := firmware_version]> result)
      else collect_firmware rest result
  end.

Definition get_all_firmware_versions (build_target : BuildTarget)
    : exn + gmap (option string) FirmwareVersions :=
  AssertInsideChroot
    (match _get_firmware_version_cmd_result build_target with
     | inl e => inl e
     | inr cmd_result => inr (collect_firmware (split_blank_line cmd_result) ∅)
     end).

Definition get_firmware_versions (build_target : BuildTarget) : exn + FirmwareVersions :=
  AssertInsideChroot
    (match _get_firmware_version_cmd_result build_target with
     | inl e => inl e
     | inr cmd_result =>
         if negb (String.eqb cmd_result EmptyString)
         then inr (_find_firmware_versions cmd_result)
         else inr {| model := None; main := None; main_rw := None;
                     ec := None; ec_rw := None |}
     end).

Definition determine_firmware_versions (build_target : BuildTarget)
    : exn + MainEcFirmwareVersions :=
  match get_firmware_versions build_target with
  | inl e => inl e
  | inr fw_versions =>
      inr {| main_fw_version := py_or (main_rw fw_versions) (main fw_versions);
             ec_fw_version := py_or (ec_rw fw_versions) (ec fw_versions) |}
  end.

End Firmware.
End Firmware.

(** ** [cros_config_host] *)

(** What is read of the [CommandResult] of a run with [check=False]. *)
Record CommandResult : Type := {
  returncode : nat;
  output : string;
  cmd_error : string
}.

Module CrosConfig.
Import PyStr PyLines.
Section CrosConfig.
Variable IsInsideChroot : bool.
(** [os.path.isfile] *)
Variable isfile : string -> bool.
(** [build_target.full_path(rel)] *)
Variable full_path : BuildTarget -> string -> string.
(** [cros_build_lib.run(cmd, capture_output=True, check=False, ...)] *)
Variable run : list string -> exn + CommandResult.

(** The list of output lines, or [None]. *)
Definition _run_cros_config_host (build_target : BuildTarget) (args : list string)
    : exn + option (list string) :=
  if negb IsInsideChroot then inl AssertionError
  else
    let tool := "/usr/bin/cros_config_host" in
    if negb (isfile tool) then inr None
    else
      let config_fname :=
        full_path build_target "usr/share/chromeos-config/yaml/config.yaml" in
      match run ([tool; "-c"; config_fname] ++ args) with
      | inl e => inl e
      | inr result =>
          if negb (returncode result =? 0) then inr None
          else inr (Some (splitlines (strip (output result))))
      end.

Definition get_models (build_target : BuildTarget) : exn + option (list string) :=
  _run_cros_config_host build_target ["list-models"].

(** [len(key_id_list)] of [None] raises [TypeError]. *)
Definition get_key_id (build_target : BuildTarget) (model : string) : error + option string :=
  let model_arg := "--model=" +:+ model in
  match _run_cros_config_host build_target [model_arg; "get"; "/firmware-signing"; "key-id"] with
  | inl e => inl (Raised e)
  | inr None => inl TypeError
  | inr (Some key_id_list) =>
      match key_id_list with
      | [key_id] => inr (Some key_id)
      | _ => inr None
      end
  end.

End CrosConfig.
End CrosConfig.

(** ** [uprev_kernel_afdo] *)

Module KernelAfdo.
Import PyStr.
Section KernelAfdo.
Variables SOURCE_ROOT CHROOT_SOURCE_ROOT : string.
(** [json.load]: the object of [kernel_afdo.json] as its items in order, each
    value being an object of strings. *)
Variable json_load : string -> exn + list (string * gmap string string).
(** [cros_build_lib.run(cmd, enter_chroot=True)] *)
Variable run : list string -> M FS unit.
(** The text of a [RunCommandError] under [%s]. *)
Variable error_text : string -> string.

Definition kernel_dir (version : string) : string :=
  os_path.join "src" ["third_party"; "chromiumos-overlay"; "sys-kernel"; version].

Definition kernel_ebuild_path (version : string) : string :=
  os_path.join SOURCE_ROOT [kernel_dir version; version +:+ "-9999.ebuild"].

Definition kernel_chroot_ebuild_path (version : string) : string :=
  os_path.join CHROOT_SOURCE_ROOT [kernel_dir version; version +:+ "-9999.ebuild"].

Definition kernel_manifest_path (version : string) : string :=
  os_path.join SOURCE_ROOT [kernel_dir version; "Manifest"].

(** The [try] around the manifest run. *)
Definition regenerate_manifest (chroot_ebuild_path : string) : M FS unit :=
  fun fs =>
    match run ["ebuild"; chroot_ebuild_path; "manifest"; "--force"] fs with
    | (inl (RunCommandError stderr), fs') =>
        (inl (EbuildManifestError
                ("Error encountered when regenerating the manifest for ebuild: "
                 +:+ chroot_ebuild_path +:+ chr LF +:+ error_text stderr)), fs')
    | r => r
    end.

(** The body of the loop over [versions.items()]. *)
Definition afdo_step (item : string * gmap string string)
    (result : UprevVersionedPackageResult) : M FS UprevVersionedPackageResult :=
  let '(version, version_info) := item in
  match version_info !! "name" with
  | None => raise (KeyError "name")
  | Some afdo_profile_version =>
      let* _ := Patch.patch_ebuild_vars (kernel_ebuild_path version)
                  {[ "AFDO_PROFILE_VERSION" := afdo_profile_version ]} in
      let* _ := regenerate_manifest (kernel_chroot_ebuild_path version) in
      ret (add_result afdo_profile_version
             [kernel_ebuild_path version; kernel_manifest_path version] result)
  end.

Fixpoint afdo_loop (items : list (string * gmap string string))
    (result : UprevVersionedPackageResult) : M FS UprevVersionedPackageResult :=
  match items with
  | [] => ret result
  | item :: rest => let* result := afdo_step item result in afdo_loop rest result
  end.

Definition uprev_kernel_afdo : M FS UprevVersionedPackageResult :=
  let path := os_path.join SOURCE_ROOT
                ["src"; "third_party"; "toolchain-utils"; "afdo_metadata";
                 "kernel_afdo.json"] in
  let* text := ReadFile path in
  match json_load text with
  | inl e => raise e
  | inr versions => afdo_loop versions new_result
  end.

(** The record the loop adds for an item. *)
Definition afdo_record (item : string * gmap string string)
    : option UprevVersionedPackageModifications :=
  match item.2 !! "name" with
  | None => None
  | Some afdo_profile_version =>
      Some {| new_version := afdo_profile_version;
              files := [kernel_ebuild_path item.1; kernel_manifest_path item.1] |}
  end.

End KernelAfdo.
End KernelAfdo.

(** ** [uprev_android] *)

Module Android.
Import PyStr PyLines.
Section Android.
Variable Chroot : Type.
Variable get_enter_args : Chroot -> list string.
(** [cros_build_lib.run(command, stdout=True, enter_chroot=True, ...).stdout]
    of the [cros_mark_android_as_stable] run. *)
Variable run_mark : list string -> list string -> exn + string.
(** [cros_build_lib.run(command, enter_chroot=True, chroot_args=...)] of an
    [emerge-<board> -p --quiet =<atom>] check. *)
Variable run_emerge : list string -> list string -> exn + unit.

Definition mark_command (tracking_branch android_package android_build_branch : string)
    (build_targets : option (list BuildTarget)) (android_version : option string)
    : list string :=
  ["cros_mark_android_as_stable";
   "--tracking_branch=" +:+ tracking_branch;
   "--android_package=" +:+ android_package;
   "--android_build_branch=" +:+ android_build_branch]
  ++ match build_targets with
     | Some (bt :: bts) => ["--boards=" +:+ join ":" (map name (bt :: bts))]
     | _ => []
     end
  ++ (if truthy android_version then ["--force_version=" +:+ py_str android_version]
      else []).

(** [portage_atom_string.splitlines()[-1].partition('=')[-1]], or [None] for
    blank output. *)
Definition atom_of_output (stdout : string) : option string :=
  let portage_atom_string := strip stdout in
  if String.eqb portage_atom_string EmptyString then None
  else
    match last (splitlines portage_atom_string) with
    | None => None
    | Some line => let '(_, _, after) := partition "=" line in Some after
    end.

(** The sanity check over the build targets. *)
Fixpoint emerge_checks (targets : list BuildTarget) (android_atom : string)
    (chroot : Chroot) : error + unit :=
  match targets with
  | [] => inr tt
  | target :: rest =>
      match run_emerge ["emerge-" +:+ name target; "-p"; "--quiet"; "=" +:+ android_atom]
              (get_enter_args chroot) with
      | inl (RunCommandError _) => inl (AndroidIsPinnedUprevError android_atom)
      | inl e => inl (Raised e)
      | inr _ => emerge_checks rest android_atom chroot
      end
  end.

(** The command of the check for one target. *)
Definition emerge_command (target : BuildTarget) (atom : string) : list string :=
  ["emerge-" +:+ name target; "-p"; "--quiet"; "=" +:+ atom].

Definition uprev_android (tracking_branch android_package android_build_branch : string)
    (chroot : Chroot) (build_targets : option (list BuildTarget))
    (android_version : option string) : error + option string :=
  let command := mark_command tracking_branch android_package android_build_branch
                   build_targets android_version in
  match run_mark command (get_enter_args chroot) with
  | inl e => inl (Raised e)
  | inr stdout =>
      let android_atom := atom_of_output stdout in
      if negb (truthy android_atom) then inr None
      else
        match emerge_checks (default [] build_targets) (py_str android_atom) chroot with
        | inl e => inl e
        | inr _ => inr android_atom
        end
  end.

End Android.
End Android.

(** ** Predicates for stating properties *)

Module Lines.
Import PyStr Patch.

(** No character of [s] is [c]. *)
Definition lacks (c : ascii) (s : string) : Prop := contains c s = false.








(** An uprev of [package] that does not raise, whatever the world. *)
Definition returns {W} (uprev : string -> M W bool) (package : string) : Prop :=
  forall w, exists ok w', uprev package w = (inr ok, w').

End Lines.

(** ** More concrete inputs *)

Module MoreScenario.
Import PyStr Patch.


(** *** A pinned package without pin, and a failing manifest run *)
Definition no_pin : FS := {[ "/cros/overlay/foo/foo-1.2.3.ebuild" := ln "EAPI=7" ]}.


Definition run_pin (tool : string -> unit -> M FS unit) : M FS UprevVersionedPackageResult :=
  Pin.uprev_ebuild_from_pin PinScenario.SOURCE_ROOT PinScenario.SOURCE_ROOT unit tool
    PinScenario.package_path PinScenario.version_pin_path tt.

(** *** A manager whose uprev of [chrome-icu] raises *)
Definition uprev_icu_fails (package : string) : M MockManager.t bool :=
  if String.eqb package "chromeos-base/chrome-icu"
  then fun m => (inl (RunCommandError "icu"), m)
  else MockManager.uprev package.

Definition run_chrome (uprev : string -> M MockManager.t bool)
    : M (Chrome.St MockManager.t) UprevVersionedPackageResult :=
  Chrome.uprev_chrome unit unit ChromeScenario.CHROME_CP ChromeScenario.OTHER_CHROME_PACKAGES
    MockManager.t MockManager.version_of_refs (MockManager.make ∅) uprev
    MockManager.ebuilds tt [ChromeScenario.tag] tt.

(** *** Replication *)
Definition no_build_config : ReplicationConfig :=
  {| file_replication_rules :=
       [ {| source_path := "private/config.json";
            destination_path := "overlay/files/config.json" |} ] |}.

Definition all_three (command args : list string) : M FS unit :=
  fun fs => (inr tt, <["/cros/overlay/files/config.c" := "c"]>
                       (<["/cros/overlay/files/ec_config.c" := "c"]>
                          (<["/cros/overlay/files/ec_config.h" := "h"]> fs))).

Definition reef_ref : GitRef :=
  {| path := "/chromeos/overlays/overlay-reef-private";
     ref := "refs/heads/master"; revision := "deadbeef" |}.

Definition reef_root : string :=
  "/cros/src/private-overlays/overlay-reef-private/chromeos-base/chromeos-config-bsp".

Definition reef_fs : FS :=
  {[ "/cros/src/private-overlays/overlay-reef-private/chromeos-base/chromeos-config-bsp/replication_config.jsonpb"
     := "{}" ]}.

Definition copy_rules (config : ReplicationConfig) : M FS unit :=
  fun fs => (inr tt, <["/cros/overlay/files/build_config.json" := "{}"]> fs).

Definition replicate (fs : FS) :=
  Replicate.replicate_private_config "/cros" "/mnt/host/source" unit (fun _ => [])
    all_three (fun _ => "config") (fun _ => "ref") (fun _ => "refs")
    (fun _ => inr GenerateScenario.config) copy_rules [reef_ref] tt fs.

(** *** Boards and their Android packages *)
Definition dependencies (board package : string) : exn + list string :=
  if String.eqb board "eve" || String.eqb board "kukui"
  then inr ["sys-apps/dbus-1.12"; "chromeos-base/android-vm-rvc-6417892-r1"]
  else if String.eqb board "reef"
  then inr ["chromeos-base/android-container-pi-6400000-r1"]
  else if String.eqb board "betty" then inr ["sys-apps/dbus-1.12"]
  else inl (RunCommandError "unknown board").

Definition split_cpv (package : string) : exn + option PackageVersion :=
  if String.eqb package "chromeos-base/android-vm-rvc-6417892-r1"
  then inr (Some {| version := Some "6417892-r1"; version_no_rev := Some "6417892" |})
  else inr (Some {| version := Some "6400000-r1"; version_no_rev := Some "6400000" |}).

Definition best_visible (atom board : string) : exn + PackageVersion :=
  inr {| version := Some "78.0.3877.4_rc-r1"; version_no_rev := Some "78.0.3877.4_rc" |}.

Definition eve : BuildTarget := {| name := "eve"; root := "/build/eve" |}.
Definition reef : BuildTarget := {| name := "reef"; root := "/build/reef" |}.

(** *** Firmware updater output for two models *)
Definition updater_output : string :=
  ln "Model:        reef" +:+ ln "BIOS version: Google_Reef.9042.87.1"
  +:+ ln "EC version:   reef_v1.1.5900" +:+ ln EmptyString
  +:+ ln "Model:        pyro" +:+ ln "BIOS version: Google_Pyro.9042.87.1"
  +:+ ln "BIOS (RW) version: Google_Pyro.9042.110.0".

(** *** [cros_config_host] runs *)
Definition key_id_run (command : list string) : exn + CommandResult :=
  inr {| returncode := 0; output := ln "REEF"; cmd_error := EmptyString |}.

Definition config_path (build_target : BuildTarget) (rel : string) : string :=
  os_path.join (root build_target) [rel].

(** *** Kernel AFDO metadata *)
Definition afdo_versions : list (string * gmap string string) :=
  [ ("chromeos-kernel-4_4", {[ "name" := "R84-13080.0-1590399778" ]}) ].

Definition afdo_fs : FS :=
  {[ "/cros/src/third_party/toolchain-utils/afdo_metadata/kernel_afdo.json" := "{}";
     "/cros/src/third_party/chromiumos-overlay/sys-kernel/chromeos-kernel-4_4/chromeos-kernel-4_4-9999.ebuild"
     := ln "AFDO_PROFILE_VERSION='R83'" ]}.

Definition kernel_afdo (run : list string -> M FS unit) : M FS UprevVersionedPackageResult :=
  KernelAfdo.uprev_kernel_afdo "/cros" "/mnt/host/source" (fun _ => inr afdo_versions)
    run (fun stderr => stderr).

Definition afdo_expected : UprevVersionedPackageResult :=
  {| modified :=
       [ {| new_version := "R84-13080.0-1590399778";
            files := [KernelAfdo.kernel_ebuild_path "/cros" "chromeos-kernel-4_4";
                      KernelAfdo.kernel_manifest_path "/cros" "chromeos-kernel-4_4"] |} ] |}.

Definition manifest_ok (command : list string) : M FS unit := fun fs => (inr tt, fs).
Definition manifest_fails (command : list string) : M FS unit :=
  fun fs => (inl (RunCommandError "no digest"), fs).

(** *** Android uprev *)
Definition mark_output (command args : list string) : exn + string :=
  inr (ln "Updating Android" +:+ ln "ANDROID_ATOM=chromeos-base/android-vm-rvc-6417892-r1").

Definition new_atom : string := "chromeos-base/android-vm-rvc-6417892-r1".

Definition emerge_not_on_reef (command args : list string) : exn + unit :=
  match command with
  | program :: _ =>
      if String.eqb program "emerge-reef" then inl (RunCommandError "masked") else inr tt
  | [] => inr tt
  end.

Definition uprev_android (build_targets : list BuildTarget) : error + option string :=
  Android.uprev_android unit (fun _ => []) mark_output emerge_not_on_reef
    "git_rvc-release" "android-vm-rvc" "git_rvc-release" tt (Some build_targets) None.

End MoreScenario.

(** * Properties *)

(** ** Strings and paths *)

Module PyStrFacts.
Import PyStr.

Example partition_ex :
  partition "=" "FOO=a=b" = ("FOO", "=", "a=b")
  /\ partition "=" "# comment" = ("# comment", EmptyString, EmptyString).
Proof. split; reflexivity. Qed.

Example strip_ex : strip "  1.2.4 " = "1.2.4".
Proof. vm_compute. reflexivity. Qed.

Example join_ex :
  os_path.join "/src" ["a/b"; "c.ebuild"] = "/src/a/b/c.ebuild"
  /\ os_path.join "/src" [EmptyString; "f"] = "/src/f"
  /\ os_path.join EmptyString ["f"] = "f"
  /\ os_path.basename "a/b/foo" = "foo"
  /\ os_path.dirname "a/b/build_config.json" = "a/b"
  /\ os_path.dirname "build_config.json" = EmptyString
  /\ os_path.dirname "/x" = "/".
Proof. vm_compute. repeat split. Qed.

Lemma append_cons a s t : String a s +:+ t = String a (s +:+ t).
Proof. reflexivity. Qed.

Lemma append_nil_r s : s +:+ EmptyString = s.
Proof. induction s as [|a s IH]; [reflexivity|]. by rewrite append_cons, IH. Qed.

Lemma append_assoc s t u : (s +:+ t) +:+ u = s +:+ (t +:+ u).
Proof.
  induction s as [|a s IH]; [reflexivity|].
  by rewrite !append_cons, IH.
Qed.

Lemma length_append s t :
  String.length (s +:+ t) = String.length s + String.length t.
Proof.
  induction s as [|a s IH]; [reflexivity|].
  rewrite append_cons. simpl. by rewrite IH.
Qed.


(** Two texts with equally long endings that are equal have equal endings. *)
Lemma append_tail_inj a b t t' :
  String.length t = String.length t' -> a +:+ t = b +:+ t' -> t = t'.
Proof.
  revert b. induction a as [|x a IH]; intros [|y b] Hlen Heq.
  - exact Heq.
  - exfalso. change (EmptyString +:+ t) with t in Heq.
    apply (f_equal String.length) in Heq.
    rewrite append_cons in Heq. simpl in Heq. rewrite length_append in Heq. lia.
  - exfalso. change (EmptyString +:+ t') with t' in Heq.
    apply (f_equal String.length) in Heq.
    rewrite append_cons in Heq. simpl in Heq. rewrite length_append in Heq. lia.
  - rewrite !append_cons in Heq. injection Heq as _ Heq. by apply (IH b).
Qed.

End PyStrFacts.

Module PathFacts.
Import PyStr os_path portage_util PyStrFacts.

(** A relative component is appended after the directory prefix. *)
Lemma join2_relative a b :
  startswith b "/" = false -> join2 a b = dir_prefix a +:+ b.
Proof.
  intros Hrel. unfold join2, dir_prefix. rewrite Hrel.
  destruct (String.eqb a EmptyString || endswith a "/"); [reflexivity|].
  by rewrite append_assoc.
Qed.

Lemma join2_suffix a b : exists pre, join2 a b = pre +:+ b.
Proof.
  destruct (startswith b "/") eqn:Hb.
  - exists EmptyString. unfold join2. by rewrite Hb.
  - exists (dir_prefix a). by apply join2_relative.
Qed.

Lemma join2_relative_inj a b c :
  startswith b "/" = false -> startswith c "/" = false ->
  join2 a b = join2 a c -> b = c.
Proof.
  intros Hb Hc. rewrite !join2_relative by done.
  apply String.app_inj.
Qed.

Lemma strip_prefix_Some pre s e : strip_prefix pre s = Some e -> s = pre +:+ e.
Proof.
  revert s. induction pre as [|a pre IH]; intros s H; simpl in H.
  - by injection H as ->.
  - destruct s as [|b s]; [discriminate|].
    destruct (Ascii.eqb a b) eqn:Hab; [|discriminate].
    apply Ascii.eqb_eq in Hab as ->. rewrite append_cons. f_equal. by apply IH.
Qed.

Lemma no_slash_relative e :
  contains SLASH e = false -> startswith e "/" = false.
Proof.
  destruct e as [|c e]; [reflexivity|].
  unfold contains. cbn [list_ascii_of_string existsb].
  intros H. apply orb_false_iff in H as [H _]. apply Ascii.eqb_neq in H.
  change (startswith (String c e) "/")
    with (if ascii_dec "/" c then String.prefix EmptyString e else false).
  destruct (ascii_dec "/" c) as [Heq|_]; [|reflexivity].
  by destruct H.
Qed.

Lemma entry_of_Some d p e : entry_of d p = Some e -> p = join d [e].
Proof.
  unfold entry_of. destruct (strip_prefix (dir_prefix d) p) as [e'|] eqn:Hp; [|discriminate].
  destruct (String.eqb e' EmptyString || contains SLASH e') eqn:He; [discriminate|].
  intros [= <-]. apply orb_false_iff in He as [_ He].
  simpl. rewrite join2_relative by (by apply no_slash_relative).
  by apply strip_prefix_Some.
Qed.

(** Every listed ebuild is a file of the file system. *)
Lemma EBuild_List_exists (fs : FS) d p :
  p ∈ EBuild_List fs d -> is_Some (fs !! p).
Proof.
  unfold EBuild_List, listdir. intros Hp.
  apply list_elem_of_In, in_map_iff in Hp as (e & <- & He).
  apply filter_In in He as [He _].
  apply list_elem_of_In, list_elem_of_omap in He as (k & Hk & Hentry).
  apply entry_of_Some in Hentry as <-.
  apply list_elem_of_In, in_map_iff in Hk as ([k' c] & Hk' & Hin). simpl in Hk'. subst k'.
  apply list_elem_of_In, elem_of_map_to_list in Hin. by exists c.
Qed.

(** Renaming a file onto itself changes nothing. *)
Lemma os_rename_same (fs : FS) p content :
  fs !! p = Some content -> os_rename p p fs = (inr tt, fs).
Proof.
  intros Hp. unfold os_rename. rewrite Hp. f_equal.
  rewrite insert_delete_eq. by apply insert_id.
Qed.

Lemma os_rename_moves (fs : FS) src dst content :
  fs !! src = Some content -> src <> dst ->
  exists fs1,
    os_rename src dst fs = (inr tt, fs1)
    /\ fs1 !! src = None
    /\ fs1 !! dst = Some content
    /\ (forall p, p <> src -> p <> dst -> fs1 !! p = fs !! p).
Proof.
  intros Hsrc Hne. unfold os_rename. rewrite Hsrc.
  eexists. split; [reflexivity|]. split; [|split].
  - rewrite lookup_insert_ne by done. apply lookup_delete_eq.
  - apply lookup_insert_eq.
  - intros p Hp1 Hp2. rewrite lookup_insert_ne by done. by rewrite lookup_delete_ne.
Qed.
End PathFacts.

(** ** [patch_ebuild_vars] *)

Module PatchFacts.
Import PyStr Patch PyStrFacts Scenario.







Lemma patched_unmatched variables line :
  matched variables line = false -> patched variables line = line.
Proof. unfold patched. by intros ->. Qed.

Lemma map_patched_lookup variables lines i line :
  lines !! i = Some line ->
  matched variables line = false ->
  map (patched variables) lines !! i = Some line.
Proof.
  intros Hi Hm. change (map (patched variables) lines) with (patched variables <$> lines).
  rewrite list_lookup_fmap, Hi. simpl. by rewrite patched_unmatched.
Qed.

(** With the assignment at the start of its line, only that line changes:
    the new value is put in double quotes and the old value and the comment
    after it are gone. *)
Example patch_flush_ebuild :
  patch_loop afdo_vars (readlines flush_ebuild) EmptyString
  = (ln "# Copyright" +:+ "AFDO_PROFILE_VERSION=" +:+ chr DQUOTE +:+ "R84"
       +:+ ln (chr DQUOTE) +:+ ln "KEYWORDS='*'", None).
Proof. vm_compute. reflexivity. Qed.

(** C6 at an indented assignment: the line is matched through its stripped
    name, the subscript with the unstripped name raises [KeyError], and the
    file is left with the lines written so far; the line [KEYWORDS='*'],
    which is not matched, is lost. *)
Theorem patch_indented_ebuild_truncates :
  readlines indented_ebuild = [ln "# Copyright"; indented_line; ln "KEYWORDS='*'"]
  /\ matched afdo_vars (ln "KEYWORDS='*'") = false
  /\ (patch_ebuild_vars "kernel-9999.ebuild" afdo_vars kernel_fs).1
     = inl (KeyError "  AFDO_PROFILE_VERSION")
  /\ (patch_ebuild_vars "kernel-9999.ebuild" afdo_vars kernel_fs).2 !! "kernel-9999.ebuild"
     = Some (ln "# Copyright").
Proof. vm_compute. repeat split. Qed.

(** C10 at an indented assignment: the text before the [=], stripped, is a
    key of the map, yet no line is written for it: the subscript raises. *)
Theorem patch_line_indented_raises :
  partition "=" indented_line = ("  AFDO_PROFILE_VERSION", "=", ln "'R83'")
  /\ afdo_vars !! strip "  AFDO_PROFILE_VERSION" = Some "R84"
  /\ matched afdo_vars indented_line = true
  /\ patch_line afdo_vars indented_line = inl (KeyError "  AFDO_PROFILE_VERSION").
Proof. vm_compute. repeat split. Qed.

End PatchFacts.

(** ** Registration and dispatch *)

Module RegistryFacts.
Import Registry Scenario.

Section Dispatch.
Context {BuildTargets Refs Chroot W Res : Type}.
Implicit Types (funcs : gmap string (Handler (BuildTargets := BuildTargets)
                                  (Refs := Refs) (Chroot := Chroot) (W := W) (Res := Res))).

Lemma register_lookup package func funcs :
  (register package func funcs).1 !! package = Some func.
Proof. unfold register. simpl. apply lookup_insert_eq. Qed.

Lemma register_lookup_ne package other func funcs :
  other <> package -> (register package func funcs).1 !! other = funcs !! other.
Proof. intros Hne. unfold register. simpl. by apply lookup_insert_ne. Qed.

Lemma registration_empty_identity :
  uprevs_versioned_package (BuildTargets := BuildTargets) (Refs := Refs)
    (Chroot := Chroot) (W := W) (Res := Res) EmptyString = inl AssertionError.
Proof. reflexivity. Qed.

(** C4, as the code has it: registering never fails for a non-empty
    identity, also when the identity already has a handler; the new
    handler takes the place of the old one and the other identities keep
    theirs. *)
Theorem registration_last_wins package func funcs :
  package <> EmptyString ->
  exists reg,
    uprevs_versioned_package package = inr reg
    /\ (reg func funcs).1 !! package = Some func
    /\ (forall other, other <> package -> (reg func funcs).1 !! other = funcs !! other).
Proof.
  intros Hne. exists (register package). split; [|split].
  - unfold uprevs_versioned_package.
    destruct (String.eqb_spec package EmptyString); [done|reflexivity].
  - apply register_lookup.
  - intros other Hother. by apply register_lookup_ne.
Qed.

(** C5: dispatch to an identity without a handler raises
    [UnknownPackageError] with the identity in its message and leaves the
    world as it was, whatever the handlers of the table would do; dispatch
    to a registered identity is the call of that identity's handler. *)
Theorem dispatch_unknown_or_handler funcs (package : CPV) build_targets refs chroot :
  (funcs !! cp package = None ->
   forall w, uprev_versioned_package funcs (Some package) build_targets refs chroot w
             = (inl (UnknownPackageError
                       ("Package " +:+ PyStr.chr PyStr.DQUOTE +:+ cp package
                        +:+ PyStr.chr PyStr.DQUOTE
                        +:+ " does not have a registered handler.")), w))
  /\ (forall func, funcs !! cp package = Some func ->
      uprev_versioned_package funcs (Some package) build_targets refs chroot
      = func build_targets refs chroot).
Proof.
  split.
  - intros Hnone w. unfold uprev_versioned_package, Handler in *. by rewrite Hnone.
  - intros func Hsome. unfold uprev_versioned_package, Handler in *. by rewrite Hsome.
Qed.
End Dispatch.

Lemma handlers_differ : first_handler <> second_handler.
Proof.
  intros Heq.
  assert (first_handler tt tt tt tt = second_handler tt tt tt tt) as H by (by rewrite Heq).
  discriminate H.
Qed.

(** C4, refuted as stated: a second registration for an identity that has a
    handler returns normally, and dispatch then reaches the second handler. *)
Lemma reregistration_replaces :
  exists reg,
    uprevs_versioned_package "chromeos-base/termina-image-arm" = inr reg
    /\ let funcs1 := (reg first_handler ∅).1 in
       let funcs2 := (reg second_handler funcs1).1 in
       funcs1 !! "chromeos-base/termina-image-arm" = Some first_handler
       /\ funcs2 !! "chromeos-base/termina-image-arm" = Some second_handler
       /\ first_handler <> second_handler
       /\ uprev_versioned_package funcs2
            (Some {| cp := "chromeos-base/termina-image-arm" |}) tt tt tt tt
          = (inr "second", tt).
Proof.
  exists (register "chromeos-base/termina-image-arm").
  split; [reflexivity|]. cbv zeta.
  split; [apply register_lookup|].
  split; [apply register_lookup|].
  split; [apply handlers_differ|].
  vm_compute. reflexivity.
Qed.

Lemma registration_last_wins_witness :
  "chromeos-base/termina-image-arm" <> EmptyString
  /\ exists reg,
      uprevs_versioned_package "chromeos-base/termina-image-arm" = inr reg
      /\ (reg second_handler (register "chromeos-base/termina-image-arm" first_handler ∅).1).1
           !! "chromeos-base/termina-image-arm" = Some second_handler
      /\ (forall other, other <> "chromeos-base/termina-image-arm" ->
          (reg second_handler (register "chromeos-base/termina-image-arm" first_handler ∅).1).1
            !! other
          = (register "chromeos-base/termina-image-arm" first_handler ∅).1 !! other).
Proof.
  split; [discriminate|].
  apply (registration_last_wins "chromeos-base/termina-image-arm" second_handler
           (register "chromeos-base/termina-image-arm" first_handler ∅).1).
  discriminate.
Defined.

Lemma dispatch_unknown_or_handler_witness :
  spies !! "chromeos-base/unknown" = None
  /\ uprev_versioned_package spies (Some {| cp := "chromeos-base/unknown" |}) tt tt tt []
     = (inl (UnknownPackageError
               ("Package " +:+ PyStr.chr PyStr.DQUOTE +:+ "chromeos-base/unknown"
                +:+ PyStr.chr PyStr.DQUOTE +:+ " does not have a registered handler.")), [])
  /\ spies !! "afdo/kernel-profiles" = Some (spy "afdo")
  /\ uprev_versioned_package spies (Some {| cp := "afdo/kernel-profiles" |}) tt tt tt []
     = (inr "afdo", ["afdo"]).
Proof.
  assert (spies !! "chromeos-base/unknown" = None) as Hnone by (vm_compute; reflexivity).
  assert (spies !! "afdo/kernel-profiles" = Some (spy "afdo")) as Hsome
    by (vm_compute; reflexivity).
  split; [exact Hnone|]. split.
  - exact (proj1 (dispatch_unknown_or_handler spies {| cp := "chromeos-base/unknown" |}
                    tt tt tt) Hnone []).
  - split; [exact Hsome|].
    rewrite (proj2 (dispatch_unknown_or_handler spies {| cp := "afdo/kernel-profiles" |}
                      tt tt tt) (spy "afdo") Hsome).
    reflexivity.
Defined.
End RegistryFacts.

(** ** [uprev_chrome] *)

Module ChromeFacts.
Import Chrome.

Section Coordinator.
Variables BuildTargets Chroot : Type.
Variable CHROME_CP : string.
Variable OTHER_CHROME_PACKAGES : list string.
Variable W : Type.
Variable get_chrome_version_from_refs : list GitRef -> exn + string.
Variable UprevChromeManager : string -> BuildTargets -> Chroot -> W -> W.
Variable uprev : string -> M W bool.
Variable modified_ebuilds : W -> list string.

Local Abbreviation uprev_chrome :=
  (uprev_chrome BuildTargets Chroot CHROME_CP OTHER_CHROME_PACKAGES W
     get_chrome_version_from_refs UprevChromeManager uprev modified_ebuilds).

(** C2: when the uprev of the primary package returns a false value, the
    coordinator returns the empty result, and the primary's is the only
    uprev that was called. *)
Theorem uprev_chrome_primary_unchanged build_targets refs chroot
    (st : St W) chrome_version w' :
  get_chrome_version_from_refs refs = inr chrome_version ->
  uprev CHROME_CP (UprevChromeManager chrome_version build_targets chroot (world W st))
    = (inr false, w') ->
  exists result st',
    uprev_chrome build_targets refs chroot st = (inr result, st')
    /\ modified result = []
    /\ uprevved result = false
    /\ calls W st' = calls W st ++ [CHROME_CP]
    /\ world W st' = w'.
Proof.
  intros Hversion Hprimary.
  exists new_result, {| world := w'; calls := calls W st ++ [CHROME_CP] |}.
  split; [|done].
  unfold Chrome.uprev_chrome, bind, lift, call_uprev. rewrite Hversion. simpl.
  by rewrite Hprimary.
Qed.

(** The follower loop raises only what an uprev raises. *)
Lemma followers_total packages st :
  (forall package w, exists ok w', uprev package w = (inr ok, w')) ->
  exists st',
    for_each packages
      (fun package => let* _ := call_uprev W uprev package in ret tt) st
    = (inr tt, st').
Proof.
  intros Htotal. revert st.
  induction packages as [|package packages IH]; intros st; simpl.
  - by eexists.
  - unfold bind at 1. unfold bind at 1. unfold call_uprev at 1.
    destruct (Htotal package (world W st)) as (ok & w' & ->). simpl.
    apply IH.
Qed.

(** The coordinator has no assertion of its own: when its collaborators do
    not raise, it returns a result, wherever the packages ended up. *)
Lemma uprev_chrome_never_asserts build_targets refs chroot st chrome_version :
  get_chrome_version_from_refs refs = inr chrome_version ->
  (forall package w, exists ok w', uprev package w = (inr ok, w')) ->
  exists result st', uprev_chrome build_targets refs chroot st = (inr result, st').
Proof.
  intros Hversion Htotal.
  unfold Chrome.uprev_chrome, bind at 1, lift. rewrite Hversion.
  unfold bind at 1. unfold bind at 1. unfold call_uprev at 1. simpl.
  destruct (Htotal CHROME_CP (UprevChromeManager chrome_version build_targets chroot
                                (world W st))) as (ok & w' & ->).
  destruct ok; simpl.
  - unfold bind at 1.
    match goal with |- context [for_each ?ps ?body ?s] =>
      destruct (followers_total ps s Htotal) as (st' & ->) end.
    unfold bind, ret. by eexists _, _.
  - unfold ret. by eexists _, _.
Qed.
End Coordinator.

Import ChromeScenario.

(** C1 at a forced mismatch: the primary lands on 84.0.4147.0, the follower
    [chrome-icu] on 83.0.4103.97, and the coordinator returns its result as
    if nothing were wrong. *)
Theorem uprev_chrome_mismatch_returns :
  run_mismatch.1
  = inr {| modified :=
             [ {| new_version := "84.0.4147.0";
                  files := ["chromeos-base/chromeos-chrome-84.0.4147.0_rc-r1.ebuild";
                            "chromeos-base/chromium-source-84.0.4147.0_rc-r1.ebuild";
                            "chromeos-base/chrome-icu-83.0.4103.97_rc-r1.ebuild"] |} ] |}
  /\ MockManager.landed (world _ run_mismatch.2) !! CHROME_CP = Some "84.0.4147.0"
  /\ MockManager.landed (world _ run_mismatch.2) !! "chromeos-base/chrome-icu"
     = Some "83.0.4103.97"
  /\ calls _ run_mismatch.2 = CHROME_CP :: OTHER_CHROME_PACKAGES.
Proof. vm_compute. repeat split. Qed.

Lemma uprev_chrome_primary_unchanged_witness :
  exists result st',
    run_unchanged = (inr result, st')
    /\ modified result = []
    /\ uprevved result = false
    /\ calls _ st' = [CHROME_CP]
    /\ world _ st' = MockManager.make ∅ "84.0.4147.0" tt tt MockManager.blank.
Proof.
  apply (uprev_chrome_primary_unchanged unit unit CHROME_CP OTHER_CHROME_PACKAGES
           MockManager.t MockManager.version_of_refs (MockManager.make ∅)
           MockManager.uprev_unchanged MockManager.ebuilds tt [tag] tt start
           "84.0.4147.0"); reflexivity.
Defined.
End ChromeFacts.

(** ** The presubmit check *)

Module PresubmitFacts.
Import Presubmit.

(** A set never equals a string. *)
Lemma set_never_equals_path (s : gset string) (p : string) :
  py_eq (PySet s) (PyString p) = false.
Proof. reflexivity. Qed.

Lemma affected_not_skipped (api : input_api) :
  mojom_source_path ∈ AffectedFiles api \/ json5_config_path ∈ AffectedFiles api ->
  bool_decide (mojom_source_path ∉ (list_to_set (AffectedFiles api) : gset string))
  && bool_decide (json5_config_path ∉ (list_to_set (AffectedFiles api) : gset string))
  = false.
Proof.
  intros Haffected. apply andb_false_iff.
  destruct Haffected as [H|H]; [left|right];
    apply bool_decide_eq_false; intros Hnot; apply Hnot;
    by apply elem_of_list_to_set.
Qed.

(** C9: the last test of the check compares the json5 names with the mojom
    path and is false whatever they are; so once one of the two files is
    affected, and both can be read, the check returns one warning, whether
    or not the two enum sets agree. *)
Theorem json5_check_always_warns (api : input_api) values features names :
  mojom_source_path ∈ AffectedFiles api \/ json5_config_path ∈ AffectedFiles api ->
  ReadHistogramValues api mojom_source_path = inr values ->
  json5_data api json5_config_path = inr features ->
  feature_names features = inr names ->
  py_eq (PySet (json5_enums_of names)) (PyString mojom_source_path) = false
  /\ _RunJson5ConfigChecks api
     = inr [ {| message :=
                  out_of_sync
                    (missing_message (mojom_enums_of values ∖ json5_enums_of names)
                       "json5 config")
                    (missing_message (json5_enums_of names ∖ mojom_enums_of values)
                       "mojom file");
                items := [mojom_source_path; json5_config_path] |} ].
Proof.
  intros Haffected Hvalues Hfeatures Hnames.
  split; [reflexivity|].
  unfold _RunJson5ConfigChecks.
  rewrite Hvalues, Hfeatures, Hnames, affected_not_skipped by done.
  by rewrite set_never_equals_path.
Qed.

(** When the two sets agree, the warning has nothing to list. *)
Lemma in_sync_message values names :
  mojom_enums_of values = json5_enums_of names ->
  out_of_sync
    (missing_message (mojom_enums_of values ∖ json5_enums_of names) "json5 config")
    (missing_message (json5_enums_of names ∖ mojom_enums_of values) "mojom file")
  = out_of_sync EmptyString EmptyString.
Proof.
  intros ->. unfold missing_message.
  by rewrite difference_diag_L, bool_decide_eq_true_2.
Qed.

Import PresubmitScenario.

Lemma json5_check_always_warns_witness :
  mojom_enums_of mojom_values = json5_enums_of ["Fullscreen"; "Camera"]
  /\ py_eq (PySet (json5_enums_of ["Fullscreen"; "Camera"])) (PyString mojom_source_path)
     = false
  /\ _RunJson5ConfigChecks in_sync
     = inr [ {| message :=
                  out_of_sync
                    (missing_message
                       (mojom_enums_of mojom_values ∖ json5_enums_of ["Fullscreen"; "Camera"])
                       "json5 config")
                    (missing_message
                       (json5_enums_of ["Fullscreen"; "Camera"] ∖ mojom_enums_of mojom_values)
                       "mojom file");
                items := [mojom_source_path; json5_config_path] |} ].
Proof.
  split; [vm_compute; reflexivity|].
  apply (json5_check_always_warns in_sync mojom_values json5_features
           ["Fullscreen"; "Camera"]).
  - right. simpl. apply list_elem_of_here.
  - reflexivity.
  - reflexivity.
  - vm_compute. reflexivity.
Defined.

Example in_sync_still_warns :
  _RunJson5ConfigChecks in_sync
  = inr [ {| message := out_of_sync EmptyString EmptyString;
             items := [mojom_source_path; json5_config_path] |} ].
Proof. vm_compute. reflexivity. Qed.
End PresubmitFacts.

(** ** [uprev_ebuild_from_pin] *)

Module PinFacts.
Import PyStr os_path portage_util PyStrFacts PathFacts Pin.

Lemma ebuild_names_differ a b :
  a +:+ "foo-1.2.3.ebuild" <> b +:+ "foo-1.2.4-r1.ebuild".
Proof.
  change "foo-1.2.3.ebuild" with ("foo-1.2." +:+ "3.ebuild").
  change "foo-1.2.4-r1.ebuild" with ("foo-1.2.4-r" +:+ "1.ebuild").
  rewrite <- !append_assoc. intros Heq.
  apply append_tail_inj in Heq; [discriminate Heq|reflexivity].
Qed.

Section Pin.
Variables SOURCE_ROOT CHROOT_SOURCE_ROOT : string.
Variable Chroot : Type.
Variable UpdateEbuildManifest : string -> Chroot -> M FS unit.

Local Abbreviation uprev_ebuild_from_pin :=
  (uprev_ebuild_from_pin SOURCE_ROOT CHROOT_SOURCE_ROOT Chroot UpdateEbuildManifest).

(** C8: with [foo-1.2.3.ebuild] as the only ebuild and the pin at 1.2.4,
    the ebuild is renamed to [foo-1.2.4-r1.ebuild], the manifest run is
    made on the file system after the rename, where the old path is gone,
    and the result has the one record
    (1.2.4, [new ebuild; old ebuild; Manifest]). *)
Theorem pinned_uprev_renames package_path version_pin_path chroot (fs fs' : FS) pin :
  let package_src_path := join SOURCE_ROOT [package_path] in
  let old_ebuild := join package_src_path ["foo-1.2.3.ebuild"] in
  let new_ebuild_path := join package_path ["foo-1.2.4-r1.ebuild"] in
  let new_ebuild := join SOURCE_ROOT [new_ebuild_path] in
  let manifest := join package_src_path ["Manifest"] in
  let renamed := (os_rename old_ebuild new_ebuild fs).2 in
  basename package_path = "foo" ->
  EBuild_List fs package_src_path = [old_ebuild] ->
  fs !! join SOURCE_ROOT [version_pin_path] = Some pin ->
  strip pin = "1.2.4" ->
  UpdateEbuildManifest (join CHROOT_SOURCE_ROOT [new_ebuild_path]) chroot renamed
    = (inr tt, fs') ->
  uprev_ebuild_from_pin package_path version_pin_path chroot fs
    = (inr {| modified := [ {| new_version := "1.2.4";
                               files := [new_ebuild; old_ebuild; manifest] |} ] |}, fs')
  /\ is_Some (fs !! old_ebuild)
  /\ renamed !! old_ebuild = None
  /\ renamed !! new_ebuild = fs !! old_ebuild.
Proof.
  intros package_src_path old_ebuild new_ebuild_path new_ebuild manifest renamed
    Hpkg Hlist Hpin Hstrip Htool.
  assert (is_Some (fs !! old_ebuild)) as [content Hold].
  { apply (EBuild_List_exists fs package_src_path). rewrite Hlist. apply list_elem_of_here. }
  assert (old_ebuild <> new_ebuild) as Hne.
  { subst old_ebuild new_ebuild new_ebuild_path. simpl.
    destruct (join2_suffix package_src_path "foo-1.2.3.ebuild") as [a ->].
    destruct (join2_suffix package_path "foo-1.2.4-r1.ebuild") as [b ->].
    destruct (join2_suffix SOURCE_ROOT (b +:+ "foo-1.2.4-r1.ebuild")) as [c ->].
    rewrite <- append_assoc. apply ebuild_names_differ. }
  destruct (os_rename_moves fs old_ebuild new_ebuild content Hold Hne)
    as (fs1 & Hrename & Hgone & Hnew & _).
  assert (renamed = fs1) as Hrenamed by (subst renamed; by rewrite Hrename).
  rewrite Hrenamed in *.
  split; [|split; [by eexists|split; [done|by rewrite Hold]]].
  unfold Pin.uprev_ebuild_from_pin. unfold bind at 1.
  fold package_src_path. rewrite Hlist. fold old_ebuild.
  unfold bind at 1. unfold ReadFile. rewrite Hpin, Hstrip, Hpkg.
  change ("foo" +:+ "-" +:+ "1.2.4" +:+ "-r1.ebuild") with "foo-1.2.4-r1.ebuild".
  fold new_ebuild_path. fold new_ebuild.
  unfold bind at 1. rewrite Hrename.
  unfold bind at 1. unfold manifest_or_error. rewrite Htool.
  reflexivity.
Qed.

(** C3, as the code has it: when the only ebuild already carries the name
    the pin asks for, the rename onto itself is not an error and changes
    no file; the manifest run is made again, and the result again has one
    record, so it counts as an uprev. *)
Theorem pinned_uprev_again package_path version_pin_path chroot (fs fs' : FS) pin :
  let package := basename package_path in
  let package_src_path := join SOURCE_ROOT [package_path] in
  let new_ebuild_path :=
    join package_path [package +:+ "-" +:+ strip pin +:+ "-r1.ebuild"] in
  let ebuild := join SOURCE_ROOT [new_ebuild_path] in
  let manifest := join package_src_path ["Manifest"] in
  EBuild_List fs package_src_path = [ebuild] ->
  fs !! join SOURCE_ROOT [version_pin_path] = Some pin ->
  UpdateEbuildManifest (join CHROOT_SOURCE_ROOT [new_ebuild_path]) chroot fs
    = (inr tt, fs') ->
  exists result,
    uprev_ebuild_from_pin package_path version_pin_path chroot fs = (inr result, fs')
    /\ modified result = [ {| new_version := strip pin;
                              files := [ebuild; ebuild; manifest] |} ]
    /\ uprevved result = true
    /\ os_rename ebuild ebuild fs = (inr tt, fs).
Proof.
  intros package package_src_path new_ebuild_path ebuild manifest Hlist Hpin Htool.
  assert (is_Some (fs !! ebuild)) as [content Hfile].
  { apply (EBuild_List_exists fs package_src_path). rewrite Hlist. apply list_elem_of_here. }
  pose proof (os_rename_same fs ebuild content Hfile) as Hrename.
  eexists. split; [|split; [|split; [|exact Hrename]]].
  - unfold Pin.uprev_ebuild_from_pin. unfold bind at 1.
    fold package_src_path. rewrite Hlist.
    unfold bind at 1. unfold ReadFile. rewrite Hpin.
    fold package. fold new_ebuild_path. fold ebuild.
    unfold bind at 1. rewrite Hrename.
    unfold bind at 1. unfold manifest_or_error. rewrite Htool.
    reflexivity.
  - reflexivity.
  - reflexivity.
Qed.
End Pin.

Import PinScenario.

Example first_run :
  (run before).1
  = inr {| modified :=
             [ {| new_version := "1.2.4";
                  files := ["/cros/overlay/foo/foo-1.2.4-r1.ebuild";
                            "/cros/overlay/foo/foo-1.2.3.ebuild";
                            "/cros/overlay/foo/Manifest"] |} ] |}
  /\ after_first !! "/cros/overlay/foo/foo-1.2.3.ebuild" = None
  /\ after_first !! "/cros/overlay/foo/foo-1.2.4-r1.ebuild" = Some (Patch.ln "EAPI=7")
  /\ after_first !! "/cros/overlay/foo/Manifest" = Some (Patch.ln "DIST").
Proof. vm_compute. repeat split. Qed.

(** C3, refuted as stated: the second of two runs with the same pin finds
    the ebuild under the pinned name, changes no file, and still reports an
    uprev with a modification record. *)
Lemma second_run_reports_uprev :
  EBuild_List after_first (join SOURCE_ROOT [package_path])
    = ["/cros/overlay/foo/foo-1.2.4-r1.ebuild"]
  /\ after_first !! join SOURCE_ROOT [version_pin_path] = Some (Patch.ln "1.2.4")
  /\ (run after_first).1 = inr {| modified := [pinned] |}
  /\ uprevved {| modified := [pinned] |} = true
  /\ map_to_list (run after_first).2 = map_to_list after_first.
Proof. vm_compute. repeat split. Qed.

Lemma pinned_uprev_renames_witness :
  run before
  = (inr {| modified :=
              [ {| new_version := "1.2.4";
                   files := [new_ebuild; old_ebuild; manifest] |} ] |},
     regenerated)
  /\ is_Some (before !! old_ebuild)
  /\ renamed !! old_ebuild = None
  /\ renamed !! new_ebuild = before !! old_ebuild.
Proof.
  apply (pinned_uprev_renames SOURCE_ROOT SOURCE_ROOT unit manifest_tool package_path
           version_pin_path tt before regenerated (Patch.ln "1.2.4")).
  - reflexivity.
  - vm_compute; reflexivity.
  - vm_compute; reflexivity.
  - vm_compute; reflexivity.
  - reflexivity.
Defined.

Lemma pinned_uprev_again_witness :
  exists result,
    run after_first
    = (inr result,
       (manifest_tool
          (join SOURCE_ROOT
             [join package_path
                [basename package_path +:+ "-" +:+ strip (Patch.ln "1.2.4") +:+ "-r1.ebuild"]])
          tt after_first).2)
    /\ modified result
       = [ {| new_version := strip (Patch.ln "1.2.4");
              files :=
                [join SOURCE_ROOT
                   [join package_path
                      [basename package_path +:+ "-" +:+ strip (Patch.ln "1.2.4")
                       +:+ "-r1.ebuild"]];
                 join SOURCE_ROOT
                   [join package_path
                      [basename package_path +:+ "-" +:+ strip (Patch.ln "1.2.4")
                       +:+ "-r1.ebuild"]];
                 manifest] |} ]
    /\ uprevved result = true
    /\ os_rename
         (join SOURCE_ROOT
            [join package_path
               [basename package_path +:+ "-" +:+ strip (Patch.ln "1.2.4") +:+ "-r1.ebuild"]])
         (join SOURCE_ROOT
            [join package_path
               [basename package_path +:+ "-" +:+ strip (Patch.ln "1.2.4") +:+ "-r1.ebuild"]])
         after_first
       = (inr tt, after_first).
Proof.
  apply (pinned_uprev_again SOURCE_ROOT SOURCE_ROOT unit manifest_tool package_path
           version_pin_path tt after_first _ (Patch.ln "1.2.4")).
  - vm_compute; reflexivity.
  - vm_compute; reflexivity.
  - reflexivity.
Defined.
End PinFacts.

(** ** [_generate_platform_c_files] *)

Module GenerateFacts.
Import PyStr os_path PathFacts Generate.

Lemma filter_all {A} (P : A -> bool) (l : list A) :
  forallb P l = true -> List.filter P l = l.
Proof.
  induction l as [|x l IH]; simpl; [reflexivity|].
  intros [Hx Hl]%andb_true_iff. rewrite Hx. f_equal. by apply IH.
Qed.

Lemma filter_drops {A} (P : A -> bool) (l : list A) :
  forallb P l = false -> length (List.filter P l) < length l.
Proof.
  induction l as [|x l IH]; simpl; [discriminate|].
  pose proof (List.filter_length_le P l) as Hle.
  destruct (P x); simpl; [|lia].
  intros Hl. apply IH in Hl. lia.
Qed.

Lemma expected_relative f : f ∈ expected_c_files -> startswith f "/" = false.
Proof.
  unfold expected_c_files. intros Hf.
  repeat (apply elem_of_cons in Hf as [->|Hf]; [reflexivity|]).
  by apply elem_of_nil in Hf.
Qed.

Section Generate.
Variables SOURCE_ROOT CHROOT_SOURCE_ROOT : string.
Variable Chroot : Type.
Variable get_enter_args : Chroot -> list string.
Variable run : list string -> list string -> M FS unit.
Variable repr_config : ReplicationConfig -> string.

Local Abbreviation generate :=
  (_generate_platform_c_files SOURCE_ROOT CHROOT_SOURCE_ROOT Chroot get_enter_args run
     repr_config).

(** An expected file is among the collected paths exactly when it exists. *)
Lemma collected_iff_exists (fs : FS) dir f :
  f ∈ expected_c_files ->
  join dir [f] ∈ collect_generated SOURCE_ROOT fs dir
  <-> path_exists fs (join SOURCE_ROOT [dir; f]) = true.
Proof.
  intros Hf. unfold collect_generated. split.
  - intros Hin. apply list_elem_of_In, in_map_iff in Hin as (g & Heq & Hg).
    apply filter_In in Hg as [Hg Hexists].
    assert (g = f) as <-; [|done].
    simpl in Heq. apply join2_relative_inj in Heq; [done| |];
      apply expected_relative; [by apply list_elem_of_In|done].
  - intros Hexists. apply list_elem_of_In, in_map_iff. exists f. split; [done|].
    apply filter_In. split; [by apply list_elem_of_In|done].
Qed.

(** C7, as the code has it: after a generator run, either all three
    expected files exist and their paths are returned, or the error is
    raised with the expected names and the found paths; a name is missing
    exactly when its path under the output directory is not among the
    found ones. *)
Theorem generated_files_checked config chroot (fs fs' : FS) build_config_path :
  let dir := dirname build_config_path in
  let found := collect_generated SOURCE_ROOT fs' dir in
  build_config_paths config = [build_config_path] ->
  run (cros_config_schema_command CHROOT_SOURCE_ROOT build_config_path)
      (get_enter_args chroot) fs = (inr tt, fs') ->
  generate config chroot fs
  = (if forallb (fun f => path_exists fs' (join SOURCE_ROOT [dir; f])) expected_c_files
     then inr (map (fun f => join dir [f]) expected_c_files)
     else inl (GeneratedCrosConfigFilesError expected_c_files found),
     fs')
  /\ Forall (fun f => path_exists fs' (join SOURCE_ROOT [dir; f]) = false
                      <-> join dir [f] ∉ found)
       expected_c_files.
Proof.
  intros dir found Hpaths Hrun. split.
  - unfold _generate_platform_c_files. rewrite Hpaths.
    unfold bind at 1. rewrite Hrun. unfold bind at 1. fold dir. fold found.
    destruct (forallb _ expected_c_files) eqn:Hall.
    + assert (found = map (fun f => join dir [f]) expected_c_files) as ->.
      { subst found. unfold collect_generated. by rewrite filter_all. }
      by rewrite length_map, Nat.eqb_refl.
    + assert (length found < length expected_c_files) as Hlt.
      { subst found. unfold collect_generated. rewrite length_map.
        by apply filter_drops. }
      by destruct (Nat.eqb_spec (length expected_c_files) (length found)); [lia|].
  - apply Forall_forall. intros f Hf.
    subst found. rewrite (collected_iff_exists fs' dir f Hf).
    by destruct (path_exists fs' (join SOURCE_ROOT [dir; f])).
Qed.
End Generate.

Import GenerateScenario.

(** C7, refuted as stated: with [ec_config.h] missing, the error carries the
    expected names and the found paths, and the difference of the two is all
    three names, not the missing one. *)
Lemma difference_is_not_the_missing_file :
  (generate two_of_three ∅).1
  = inl (GeneratedCrosConfigFilesError
           ["config.c"; "ec_config.c"; "ec_config.h"]
           ["overlay/files/config.c"; "overlay/files/ec_config.c"])
  /\ list_difference ["config.c"; "ec_config.c"; "ec_config.h"]
       ["overlay/files/config.c"; "overlay/files/ec_config.c"]
     = ["config.c"; "ec_config.c"; "ec_config.h"]
  /\ (list_to_set ["config.c"; "ec_config.c"; "ec_config.h"]
        ∖ list_to_set ["overlay/files/config.c"; "overlay/files/ec_config.c"] : gset string)
     <> {["ec_config.h"]}.
Proof.
  split; [vm_compute; reflexivity|]. split; [vm_compute; reflexivity|].
  intros Heq.
  assert ("config.c" ∈ ({["ec_config.h"]} : gset string)) as Hin.
  { rewrite <- Heq. apply elem_of_difference. split.
    - apply elem_of_list_to_set, list_elem_of_here.
    - intros Hin. apply elem_of_list_to_set in Hin.
      repeat (apply elem_of_cons in Hin as [Hin|Hin]; [discriminate Hin|]).
      by apply elem_of_nil in Hin. }
  apply elem_of_singleton in Hin. discriminate Hin.
Qed.

(** The message of that error, as [__init__] formats it. *)
Example missing_file_message :
  GeneratedCrosConfigFilesError_msg
    ["config.c"; "ec_config.c"; "ec_config.h"]
    ["overlay/files/config.c"; "overlay/files/ec_config.c"]
  = "Expected to find generated C files: ['config.c', 'ec_config.c', 'ec_config.h']. "
    +:+ "Actually found: ['overlay/files/config.c', 'overlay/files/ec_config.c']".
Proof. vm_compute. reflexivity. Qed.

Lemma generated_files_checked_witness :
  generate two_of_three ∅
  = (inl (GeneratedCrosConfigFilesError expected_c_files
            (collect_generated SOURCE_ROOT (two_of_three [] [] ∅).2
               (dirname "overlay/files/build_config.json"))),
     (two_of_three [] [] ∅).2)
  /\ Forall (fun f =>
               path_exists (two_of_three [] [] ∅).2
                 (join SOURCE_ROOT [dirname "overlay/files/build_config.json"; f]) = false
               <-> join (dirname "overlay/files/build_config.json") [f]
                   ∉ collect_generated SOURCE_ROOT (two_of_three [] [] ∅).2
                       (dirname "overlay/files/build_config.json"))
       expected_c_files.
Proof.
  destruct (generated_files_checked SOURCE_ROOT CHROOT_SOURCE_ROOT unit (fun _ => [])
              two_of_three (fun _ => "file_replication_rules {...}") config tt ∅
              (two_of_three [] [] ∅).2 "overlay/files/build_config.json")
    as [Hgen Hall].
  - vm_compute; reflexivity.
  - reflexivity.
  - split; [|exact Hall].
    unfold generate. rewrite Hgen.
    match goal with |- context [forallb ?P ?l] =>
      assert (forallb P l = false) as -> by (vm_compute; reflexivity) end.
    reflexivity.
Defined.
End GenerateFacts.

(** * More properties *)

Example splitlines_ex :
  PyLines.splitlines (Patch.ln "a" +:+ Patch.ln EmptyString +:+ "b") = ["a"; EmptyString; "b"]
  /\ PyLines.splitlines (Patch.ln "a") = ["a"]
  /\ PyLines.split_blank_line (Patch.ln "a" +:+ Patch.ln EmptyString +:+ "b") = ["a"; "b"]
  /\ PyLines.split_blank_line "ab" = ["ab"]
  /\ PyLines.find_after "BIOS" "x BIOS version" = Some " version".
Proof. vm_compute. repeat split. Qed.

Module PatchMore.
Import PyStr Patch PyStrFacts PatchFacts Lines.

Lemma contains_cons c a s : contains c (String a s) = Ascii.eqb c a || contains c s.
Proof. reflexivity. Qed.


(** [partition] splits the text at the first separator. *)
Lemma partition_spec sep s :
  let '(before, eq, after) := partition sep s in
  s = before +:+ eq +:+ after
  /\ lacks sep before
  /\ (eq = chr sep \/ (eq = EmptyString /\ after = EmptyString /\ lacks sep s)).
Proof.
  induction s as [|c s IH]; simpl.
  - split; [reflexivity|]. split; [reflexivity|]. right. by repeat split.
  - destruct (Ascii.eqb c sep) eqn:Hc.
    + apply Ascii.eqb_eq in Hc as ->. split; [reflexivity|]. split; [reflexivity|]. by left.
    + destruct (partition sep s) as [[before eq] after].
      destruct IH as (Hs & Hlack & Heq).
      assert (Ascii.eqb sep c = false) as Hc' by (by rewrite Ascii.eqb_sym).
      split; [by rewrite append_cons, <- Hs|]. split.
      * unfold lacks. by rewrite contains_cons, Hc'.
      * destruct Heq as [->|(-> & -> & Hs')]; [by left|right].
        repeat split; auto. unfold lacks. by rewrite contains_cons, Hc'.
Qed.


























End PatchMore.

Module RegistryMore.
Import Registry.
Section Dispatch.
Context {BuildTargets Refs Chroot W Res : Type}.
Implicit Types (funcs : gmap string (Handler (BuildTargets := BuildTargets)
                                  (Refs := Refs) (Chroot := Chroot) (W := W) (Res := Res))).

(** X5: registering a handler and then dispatching to its identity calls that
    handler, as does calling the decorated function itself; dispatch to any
    other identity goes as before the registration. *)
Theorem register_then_dispatch package func funcs build_targets refs chroot :
  package <> EmptyString ->
  exists reg,
    uprevs_versioned_package package = inr reg
    /\ uprev_versioned_package (reg func funcs).1 (Some {| cp := package |})
         build_targets refs chroot
       = func build_targets refs chroot
    /\ (reg func funcs).2 build_targets refs chroot = func build_targets refs chroot
    /\ (forall other, cp other <> package ->
        uprev_versioned_package (reg func funcs).1 (Some other) build_targets refs chroot
        = uprev_versioned_package funcs (Some other) build_targets refs chroot).
Proof.
  intros Hne. exists (register package). split; [|split; [|split]].
  - unfold uprevs_versioned_package.
    destruct (String.eqb_spec package EmptyString); [done|reflexivity].
  - unfold uprev_versioned_package, register, Handler in *. simpl.
    by rewrite lookup_insert_eq.
  - reflexivity.
  - intros other Hother. unfold uprev_versioned_package, register, Handler in *. simpl.
    by rewrite lookup_insert_ne.
Qed.
End Dispatch.
End RegistryMore.

Module PinMore.
Import PyStr os_path portage_util PyStrFacts PathFacts Pin.
Section Pin.
Variables SOURCE_ROOT CHROOT_SOURCE_ROOT : string.
Variable Chroot : Type.
Variable UpdateEbuildManifest : string -> Chroot -> M FS unit.

Local Abbreviation uprev_ebuild_from_pin :=
  (uprev_ebuild_from_pin SOURCE_ROOT CHROOT_SOURCE_ROOT Chroot UpdateEbuildManifest).


(** X7: with one ebuild but no pin file, the call raises the read error for the
    pin path before anything is renamed: no file changes. *)
Theorem pinned_uprev_missing_pin package_path version_pin_path chroot (fs : FS) ebuild :
  EBuild_List fs (join SOURCE_ROOT [package_path]) = [ebuild] ->
  fs !! join SOURCE_ROOT [version_pin_path] = None ->
  uprev_ebuild_from_pin package_path version_pin_path chroot fs
  = (inl (OSError (join SOURCE_ROOT [version_pin_path])), fs).
Proof.
  intros Hlist Hpin. unfold Pin.uprev_ebuild_from_pin, bind at 1. rewrite Hlist.
  unfold bind at 1, ReadFile. by rewrite Hpin.
Qed.



End Pin.
End PinMore.

Module ChromeMore.
Import Chrome Lines.
Section Coordinator.
Variables BuildTargets Chroot : Type.
Variable CHROME_CP : string.
Variable OTHER_CHROME_PACKAGES : list string.
Variable W : Type.
Variable get_chrome_version_from_refs : list GitRef -> exn + string.
Variable UprevChromeManager : string -> BuildTargets -> Chroot -> W -> W.
Variable uprev : string -> M W bool.
Variable modified_ebuilds : W -> list string.

Local Abbreviation uprev_chrome :=
  (uprev_chrome BuildTargets Chroot CHROME_CP OTHER_CHROME_PACKAGES W
     get_chrome_version_from_refs UprevChromeManager uprev modified_ebuilds).

Local Abbreviation follower_loop packages :=
  (for_each packages (fun package => let* _ := call_uprev W uprev package in ret tt)).

Lemma followers_called packages st :
  Forall (returns uprev) packages ->
  exists st',
    follower_loop packages st = (inr tt, st')
    /\ calls W st' = calls W st ++ packages.
Proof.
  intros Hall. revert st.
  induction Hall as [|package packages Hp _ IH]; intros st; simpl.
  - exists st. by rewrite app_nil_r.
  - unfold bind at 1. unfold bind at 1. unfold call_uprev at 1.
    destruct (Hp (world W st)) as (ok & w' & ->). simpl.
    destruct (IH {| world := w'; calls := calls W st ++ [package] |}) as (st' & -> & Hcalls).
    exists st'. split; [done|]. rewrite Hcalls. simpl. by rewrite <- app_assoc.
Qed.

Lemma followers_stop before package after st e :
  Forall (returns uprev) before ->
  (forall w, exists w', uprev package w = (inl e, w')) ->
  exists st',
    follower_loop (before ++ package :: after) st = (inl e, st')
    /\ calls W st' = calls W st ++ before ++ [package].
Proof.
  intros Hall Hraise. revert st.
  induction Hall as [|p ps Hp _ IH]; intros st; simpl.
  - unfold bind at 1. unfold bind at 1. unfold call_uprev at 1.
    destruct (Hraise (world W st)) as (w' & ->). simpl. by eexists.
  - unfold bind at 1. unfold bind at 1. unfold call_uprev at 1.
    destruct (Hp (world W st)) as (ok & w' & ->). simpl.
    destruct (IH {| world := w'; calls := calls W st ++ [p] |}) as (st' & -> & Hcalls).
    exists st'. split; [done|]. rewrite Hcalls. simpl. by rewrite <- app_assoc.
Qed.

(** X10: when the primary uprev returns a true value and no follower uprev
    raises, every follower is uprevved exactly once, in the declared order and
    after the primary, whatever the follower uprevs return; the result has
    the one record (chrome version, the manager's modified ebuilds at the
    end). *)
Theorem uprev_chrome_uprevs_followers build_targets refs chroot (st : St W)
    chrome_version w1 :
  get_chrome_version_from_refs refs = inr chrome_version ->
  uprev CHROME_CP (UprevChromeManager chrome_version build_targets chroot (world W st))
    = (inr true, w1) ->
  Forall (returns uprev) OTHER_CHROME_PACKAGES ->
  exists result st',
    uprev_chrome build_targets refs chroot st = (inr result, st')
    /\ calls W st' = calls W st ++ CHROME_CP :: OTHER_CHROME_PACKAGES
    /\ modified result
       = [ {| new_version := chrome_version; files := modified_ebuilds (world W st') |} ].
Proof.
  intros Hversion Hprimary Hall.
  unfold Chrome.uprev_chrome, bind at 1, lift. rewrite Hversion.
  unfold bind at 1. unfold bind at 1. unfold call_uprev at 1. simpl.
  rewrite Hprimary. simpl. unfold bind at 1.
  destruct (followers_called OTHER_CHROME_PACKAGES
              {| world := w1; calls := calls W st ++ [CHROME_CP] |} Hall)
    as (st' & -> & Hcalls).
  unfold bind, ret. exists (add_result chrome_version (modified_ebuilds (world W st')) new_result), st'.
  split; [done|]. split; [|done].
  rewrite Hcalls. simpl. by rewrite <- app_assoc.
Qed.

(** X11: a follower uprev that raises ends the run with its exception: the
    followers after it are not tried, no result is returned, and what the
    primary and the earlier followers did stays. *)
Theorem uprev_chrome_follower_raises build_targets refs chroot (st : St W)
    chrome_version w1 before package after e :
  get_chrome_version_from_refs refs = inr chrome_version ->
  uprev CHROME_CP (UprevChromeManager chrome_version build_targets chroot (world W st))
    = (inr true, w1) ->
  OTHER_CHROME_PACKAGES = before ++ package :: after ->
  Forall (returns uprev) before ->
  (forall w, exists w', uprev package w = (inl e, w')) ->
  exists st',
    uprev_chrome build_targets refs chroot st = (inl e, st')
    /\ calls W st' = calls W st ++ CHROME_CP :: before ++ [package].
Proof.
  intros Hversion Hprimary Hother Hall Hraise.
  unfold Chrome.uprev_chrome, bind at 1, lift. rewrite Hversion.
  unfold bind at 1. unfold bind at 1. unfold call_uprev at 1. simpl.
  rewrite Hprimary. simpl. unfold bind at 1. rewrite Hother.
  destruct (followers_stop before package after
              {| world := w1; calls := calls W st ++ [CHROME_CP] |} e Hall Hraise)
    as (st' & -> & Hcalls).
  exists st'. split; [done|]. rewrite Hcalls. simpl. by rewrite <- app_assoc.
Qed.
End Coordinator.
End ChromeMore.

Module GenerateMore.
Import PyStr os_path PathFacts Generate.
Section Generate.
Variables SOURCE_ROOT CHROOT_SOURCE_ROOT : string.
Variable Chroot : Type.
Variable get_enter_args : Chroot -> list string.
Variable run : list string -> list string -> M FS unit.
Variable repr_config : ReplicationConfig -> string.

Local Abbreviation generate :=
  (_generate_platform_c_files SOURCE_ROOT CHROOT_SOURCE_ROOT Chroot get_enter_args run
     repr_config).

(** X12: the generator is run only for exactly one [build_config.json]
    destination: with none the result is the empty list, with several
    [ValueError] is raised, and in both cases the external tool is not run and
    no file is looked at. *)
Theorem generate_needs_one_build_config config chroot (fs : FS) :
  length (List.filter (fun rule => endswith (destination_path rule) "build_config.json")
            (file_replication_rules config)) <> 1 ->
  generate config chroot fs
  = (if length (List.filter (fun rule => endswith (destination_path rule) "build_config.json")
                  (file_replication_rules config)) =? 0
     then inr []
     else inl (ValueError
                 ("Expected at most one build_config.json destination path. "
                  +:+ "Replication config: " +:+ repr_config config)),
     fs).
Proof.
  assert (length (build_config_paths config)
          = length (List.filter
                      (fun rule => endswith (destination_path rule) "build_config.json")
                      (file_replication_rules config))) as <-.
  { unfold build_config_paths.
    induction (file_replication_rules config) as [|rule rules IH]; [reflexivity|].
    simpl. destruct (endswith (destination_path rule) "build_config.json"); simpl; lia. }
  intros Hlen. unfold _generate_platform_c_files.
  destruct (build_config_paths config) as [|p [|p' ps]]; [reflexivity|done|reflexivity].
Qed.
End Generate.
End GenerateMore.

Module ReplicateFacts.
Import PyStr os_path portage_util PyStrFacts PathFacts Replicate Lines.





Section Replicate.
Variables SOURCE_ROOT CHROOT_SOURCE_ROOT : string.
Variable Chroot : Type.
Variable get_enter_args : Chroot -> list string.
Variable run : list string -> list string -> M FS unit.
Variable repr_config : ReplicationConfig -> string.
Variable repr_ref : GitRef -> string.
Variable repr_refs : list GitRef -> string.
Variable Parse : string -> exn + ReplicationConfig.
Variable Replicate : ReplicationConfig -> M FS unit.

Local Abbreviation package_root := (_get_private_overlay_package_root SOURCE_ROOT repr_ref).
Local Abbreviation replicate :=
  (replicate_private_config SOURCE_ROOT CHROOT_SOURCE_ROOT Chroot get_enter_args run
     repr_config repr_ref repr_refs Parse Replicate).
Local Abbreviation generate :=
  (Generate._generate_platform_c_files SOURCE_ROOT CHROOT_SOURCE_ROOT Chroot
     get_enter_args run repr_config).


(** X14: when the package root has no [replication_config.jsonpb], the read
    error is turned into [ValueError] naming the expected path, and nothing is
    replicated or generated. *)
Theorem replicate_missing_config ref chroot (fs : FS) root :
  package_root ref "chromeos-base/chromeos-config-bsp" = inr root ->
  fs !! join root ["replication_config.jsonpb"] = None ->
  replicate [ref] chroot fs
  = (inl (ValueError ("Expected ReplicationConfig missing at "
                      +:+ join root ["replication_config.jsonpb"])), fs).
Proof.
  intros Hroot Hfile. unfold replicate_private_config. rewrite Hroot.
  unfold bind at 1. unfold read_replication_config, bind, ReadFile. by rewrite Hfile.
Qed.

Lemma absolute_paths_spec files :
  absolute_paths SOURCE_ROOT files
  = if existsb isabs files then inl AssertionError
    else inr (map (fun f => join SOURCE_ROOT [f]) files).
Proof.
  induction files as [|f files IH]; [reflexivity|].
  simpl. destruct (isabs f); [reflexivity|]. simpl. rewrite IH.
  by destruct (existsb isabs files).
Qed.

(** X15: after the config was read, replicated and the C files generated, the
    result has one record: the ref's revision as version, and as files the
    rules' destination paths in rule order followed by the generated files,
    each joined with the source root.  If one of these paths is absolute, the
    assertion fails instead, after replication and generation have been
    done. *)
Theorem replicate_result ref chroot (fs fs1 fs2 : FS) root text config generated :
  package_root ref "chromeos-base/chromeos-config-bsp" = inr root ->
  fs !! join root ["replication_config.jsonpb"] = Some text ->
  Parse text = inr config ->
  Replicate config fs = (inr tt, fs1) ->
  generate config chroot fs1 = (inr generated, fs2) ->
  let relative := map destination_path (file_replication_rules config) ++ generated in
  replicate [ref] chroot fs
  = (if existsb isabs relative then inl AssertionError
     else inr {| modified :=
                   [ {| new_version := revision ref;
                        files := map (fun f => join SOURCE_ROOT [f]) relative |} ] |},
     fs2).
Proof.
  intros Hroot Hfile Hparse Hrep Hgen relative.
  unfold replicate_private_config. rewrite Hroot.
  unfold bind at 1. unfold read_replication_config, bind at 1, ReadFile.
  rewrite Hfile, Hparse.
  unfold bind at 1. rewrite Hrep.
  unfold bind at 1. rewrite Hgen. fold relative.
  rewrite absolute_paths_spec. by destruct (existsb isabs relative).
Qed.
End Replicate.
End ReplicateFacts.

Module VersionFacts.
Import PyStr PyStrFacts Versions PatchMore Lines.
Section Versions.
Variable GetPackageDependencies : string -> string -> exn + list string.
Variable SplitCPV : string -> exn + option PackageVersion.
Variable PortageqBestVisible : string -> string -> exn + PackageVersion.
Variable CHROME_CP : string.

Local Abbreviation android_package := (determine_android_package GetPackageDependencies).
Local Abbreviation android_target := (determine_android_target GetPackageDependencies).
Local Abbreviation android_version :=
  (determine_android_version GetPackageDependencies SplitCPV).
Local Abbreviation version_loop := (android_version_loop GetPackageDependencies SplitCPV).
Local Abbreviation board_has_version :=
  (board_has_version GetPackageDependencies SplitCPV).
Local Abbreviation chrome_version :=
  (determine_chrome_version PortageqBestVisible CHROME_CP).

Lemma android_package_prefix board package :
  android_package board = inr (Some package) -> is_android_package package = true.
Proof.
  unfold determine_android_package.
  destruct (GetPackageDependencies board "virtual/target-os") as [e|packages].
  - by destruct e.
  - intros [= H]. by apply find_some in H as [_ H].
Qed.

(** X16: [determine_android_target] never raises [NoAndroidTargetError]: a
    portage failure is already turned into [None] by
    [determine_android_package], and a package it returns has one of the two
    prefixes.  The result is [None], [bertha] or [cheets], or another error of
    the dependency query passed on. *)
Theorem android_target_total board :
  (forall msg, determine_android_target GetPackageDependencies board
               <> inl (NoAndroidTargetError msg))
  /\ (determine_android_target GetPackageDependencies board = inr None
      \/ determine_android_target GetPackageDependencies board
         = inr (Some "bertha")
      \/ determine_android_target GetPackageDependencies board
         = inr (Some "cheets")
      \/ exists e, determine_android_target GetPackageDependencies board
                   = inl (Raised e)
                   /\ GetPackageDependencies board "virtual/target-os" = inl e).
Proof.
  change (determine_android_target GetPackageDependencies) with android_target.
  assert (android_target board = inr None
      \/ android_target board = inr (Some "bertha")
      \/ android_target board = inr (Some "cheets")
      \/ exists e, android_target board = inl (Raised e)
                   /\ GetPackageDependencies board "virtual/target-os" = inl e) as H.
  { unfold determine_android_target.
    destruct (android_package board) as [e|[package|]] eqn:Hp.
    - right. right. right. exists e.
      unfold determine_android_package in Hp.
      destruct (GetPackageDependencies board "virtual/target-os") as [e'|packages];
        [|discriminate].
      destruct e'; try discriminate Hp; injection Hp as <-; by split.
    - apply android_package_prefix in Hp. unfold is_android_package in Hp.
      destruct (truthy (Some package)); [|by left]. simpl.
      destruct (startswith package "chromeos-base/android-vm-"); [by right; left|].
      rewrite orb_false_r in Hp. rewrite Hp. by right; right; left.
    - by left. }
  split; [|exact H].
  intros msg Hmsg. rewrite Hmsg in H.
  destruct H as [H|[H|[H|(e & H & _)]]]; discriminate H.
Qed.

Lemma truthy_nonempty v : v <> EmptyString -> truthy (Some v) = true.
Proof. by destruct v. Qed.

Lemma version_loop_agree boards todo version v :
  v <> EmptyString ->
  Forall (fun board => board_has_version board v) todo ->
  version = None \/ version = Some v ->
  version_loop boards todo version
  = inr (match todo with [] => version | _ :: _ => Some v end).
Proof.
  intros Hv Hall. revert version.
  induction Hall as [|board rest (package & cpv & Hp & Ht & Hs & Hcpv) _ IH];
    intros version Hversion; [reflexivity|].
  simpl. rewrite Hp, Ht. simpl. rewrite Hs, Hcpv.
  destruct Hversion as [->| ->]; simpl.
  - rewrite IH by auto. by destruct rest.
  - destruct v; [done|]. simpl. rewrite bool_decide_eq_true_2 by done. simpl.
    rewrite IH by auto. by destruct rest.
Qed.

(** X17: when every board's Android package has the same non-empty version,
    that version is returned. *)
Theorem android_version_unanimous boards v :
  boards <> [] ->
  v <> EmptyString ->
  Forall (fun board => board_has_version board v) boards ->
  android_version (Some boards) = inr (Some v).
Proof.
  intros Hne Hv Hall. unfold determine_android_version.
  destruct boards as [|b bs]; [done|].
  by rewrite (version_loop_agree _ _ None v Hv Hall); [|left].
Qed.

Lemma version_loop_app boards before todo version v :
  v <> EmptyString ->
  before <> [] ->
  Forall (fun board => board_has_version board v) before ->
  version = None \/ version = Some v ->
  version_loop boards (before ++ todo) version = version_loop boards todo (Some v).
Proof.
  intros Hv Hne Hall. revert version.
  induction Hall as [|board rest (package & cpv & Hp & Ht & Hs & Hcpv) _ IH];
    intros version Hversion; [done|].
  simpl. rewrite Hp, Ht. simpl. rewrite Hs, Hcpv.
  assert (version_loop boards (rest ++ todo) (Some v) = version_loop boards todo (Some v))
    as Hrest.
  { destruct rest as [|r rest']; [reflexivity|]. apply IH; [done|by right]. }
  destruct Hversion as [->| ->]; simpl; [exact Hrest|].
  destruct v; [done|]. simpl. rewrite bool_decide_eq_true_2 by done. exact Hrest.
Qed.

(** X18: the first board whose version differs from that of the boards before
    it ends the call with [NoAndroidVersionError] naming both versions and the
    board list. *)
Theorem android_version_mismatch before board after v v' :
  before <> [] ->
  v <> EmptyString ->
  v <> v' ->
  Forall (fun b => board_has_version b v) before ->
  board_has_version board v' ->
  android_version (Some (before ++ board :: after))
  = inl (NoAndroidVersionError
           ("Different Android versions (" +:+ v +:+ " vs " +:+ v' +:+ ") for "
            +:+ repr_list (before ++ board :: after))).
Proof.
  intros Hne Hv Hdiff Hall (package & cpv & Hp & Ht & Hs & Hcpv).
  unfold determine_android_version.
  destruct (before ++ board :: after) as [|b0 bs] eqn:Hboards;
    [by destruct before|]. rewrite <- Hboards.
  rewrite (version_loop_app _ before _ None v) by auto.
  simpl. rewrite Hp, Ht. simpl. rewrite Hs, Hcpv.
  destruct v as [|a v0]; [done|]. cbn [negb].
  case_bool_decide as Heq; [by simplify_eq|reflexivity].
Qed.

(** X19: a board without an Android package makes the result [None], whatever
    version the boards before it agreed on; the boards after it are not looked
    at. *)
Theorem android_version_board_without_package before board after v :
  v <> EmptyString ->
  Forall (fun b => board_has_version b v) before ->
  android_package board = inr None ->
  android_version (Some (before ++ board :: after)) = inr None.
Proof.
  intros Hv Hall Hp. unfold determine_android_version.
  destruct (before ++ board :: after) as [|b0 bs] eqn:Hboards;
    [by destruct before|]. rewrite <- Hboards.
  destruct before as [|b before'].
  - simpl. by rewrite Hp.
  - rewrite (version_loop_app _ (b :: before') _ None v) by auto.
    simpl. by rewrite Hp.
Qed.

(** X20: the Chrome version is the text of [version_no_rev] before its first
    underscore: it has no underscore, and the full text is it alone or it
    followed by an underscore and a rest. *)
Theorem chrome_version_before_underscore build_target cpv text :
  PortageqBestVisible CHROME_CP (name build_target) = inr cpv ->
  version_no_rev cpv = Some text ->
  exists v,
    chrome_version build_target = inr (Some v)
    /\ lacks "_" v
    /\ (text = v \/ exists rest, text = v +:+ "_" +:+ rest).
Proof.
  intros Hbest Htext. unfold determine_chrome_version. rewrite Hbest, Htext.
  pose proof (partition_spec "_" text) as H.
  destruct (partition "_" text) as [[before e] after].
  destruct H as (H1 & H2 & H3). exists before. split; [done|]. split; [done|].
  destruct H3 as [->|(-> & -> & _)].
  - right. by exists after.
  - left. by rewrite H1, !append_nil_r.
Qed.
End Versions.
End VersionFacts.

Module FirmwareFacts.
Import PyStr PyLines PyStrFacts PatchMore Firmware Lines.

Lemma rest_of_line_lacks s : lacks LF (rest_of_line s).
Proof.
  induction s as [|c s IH]; [reflexivity|].
  simpl. destruct (Ascii.eqb c LF) eqn:Hc; [reflexivity|].
  unfold lacks in *. by rewrite contains_cons, Ascii.eqb_sym, Hc.
Qed.

Lemma lstrip_idempotent s : lstrip (lstrip s) = lstrip s.
Proof.
  induction s as [|c s IH]; [reflexivity|].
  simpl. destruct (isspace c) eqn:Hc; [exact IH|]. simpl. by rewrite Hc.
Qed.

Lemma lstrip_rest_of_line s : lstrip s = s -> lstrip (rest_of_line s) = rest_of_line s.
Proof.
  destruct s as [|c s]; [reflexivity|]. simpl.
  destruct (isspace c) eqn:Hc.
  - intros Heq. exfalso. apply (f_equal String.length) in Heq. simpl in Heq.
    assert (forall t, String.length (lstrip t) <= String.length t) as Hle.
    { clear. induction t as [|a t IH]; simpl; [lia|]. destruct (isspace a); simpl; lia. }
    specialize (Hle s). lia.
  - intros _. destruct (Ascii.eqb c LF) eqn:Hlf; [reflexivity|]. simpl. by rewrite Hc.
Qed.

(** X21: every version or model text that [_find_firmware_versions] reports is
    one line without leading white space: it holds no newline and starts with
    a character that is not a blank. *)
Theorem firmware_fields_are_single_lines cmd_output field text :
  field ∈ [model; main; main_rw; ec; ec_rw] ->
  field (_find_firmware_versions cmd_output) = Some text ->
  lacks LF text /\ lstrip text = text.
Proof.
  assert (forall label, search_field label cmd_output = Some text ->
                        lacks LF text /\ lstrip text = text) as Hfield.
  { intros label. unfold search_field.
    destruct (find_after label cmd_output) as [after|]; [|discriminate].
    intros [= <-]. split; [apply rest_of_line_lacks|].
    apply lstrip_rest_of_line, lstrip_idempotent. }
  intros Hin.
  repeat (apply elem_of_cons in Hin as [->|Hin]; [apply Hfield|]).
  by apply elem_of_nil in Hin.
Qed.

Section Firmware.
Variable IsInsideChroot : bool.
Variable run_updater : string -> exn + string.

Lemma collect_firmware_keys payloads result :
  (forall k v, result !! k = Some v -> model v = k) ->
  forall k v, collect_firmware payloads result !! k = Some v -> model v = k.
Proof.
  revert result. induction payloads as [|payload rest IH]; intros result Hinv; [exact Hinv|].
  simpl. destruct (occurs "BIOS" payload); [|by apply IH].
  apply IH. intros k v Hk.
  destruct (decide (model (_find_firmware_versions payload) = k)) as [<-|Hne].
  - rewrite lookup_insert_eq in Hk. by injection Hk as <-.
  - rewrite lookup_insert_ne in Hk by done. by apply Hinv.
Qed.

(** X22: in the dict that [get_all_firmware_versions] returns, every entry is
    filed under its own model: the key equals the [model] field of the value
    ([None] for a payload without a model line). *)
Theorem firmware_versions_keyed_by_model build_target result k v :
  get_all_firmware_versions IsInsideChroot run_updater build_target = inr result ->
  result !! k = Some v ->
  model v = k.
Proof.
  unfold get_all_firmware_versions, AssertInsideChroot.
  destruct IsInsideChroot; [|discriminate].
  destruct (_get_firmware_version_cmd_result run_updater build_target) as [e|out];
    [discriminate|].
  intros [= <-]. apply collect_firmware_keys. intros k' v' Hk.
  by rewrite lookup_empty in Hk.
Qed.
End Firmware.
End FirmwareFacts.

Module CrosConfigFacts.
Import PyStr PyLines PyStrFacts PatchMore CrosConfig Lines.





Section CrosConfig.
Variable IsInsideChroot : bool.
Variable isfile : string -> bool.
Variable full_path : BuildTarget -> string -> string.
Variable run : list string -> exn + CommandResult.

Local Abbreviation get_models := (get_models IsInsideChroot isfile full_path run).
Local Abbreviation get_key_id := (get_key_id IsInsideChroot isfile full_path run).

(** X23: inside the chroot but without the [cros_config_host] tool,
    [get_models] returns [None], while [get_key_id] raises [TypeError]: it
    takes the length of that [None]. *)
Theorem key_id_without_tool build_target model :
  IsInsideChroot = true ->
  isfile "/usr/bin/cros_config_host" = false ->
  get_models build_target = inr None
  /\ get_key_id build_target model = inl TypeError.
Proof.
  intros Hin Htool. unfold CrosConfig.get_models, CrosConfig.get_key_id, _run_cros_config_host.
  by rewrite Hin, Htool.
Qed.

End CrosConfig.
End CrosConfigFacts.

Module KernelAfdoFacts.
Import PyStr KernelAfdo.
Section KernelAfdo.
Variables SOURCE_ROOT CHROOT_SOURCE_ROOT : string.
Variable json_load : string -> exn + list (string * gmap string string).
Variable run : list string -> M FS unit.
Variable error_text : string -> string.

Local Abbreviation step := (afdo_step SOURCE_ROOT CHROOT_SOURCE_ROOT run error_text).
Local Abbreviation loop := (afdo_loop SOURCE_ROOT CHROOT_SOURCE_ROOT run error_text).
Local Abbreviation record := (afdo_record SOURCE_ROOT).
Local Abbreviation uprev_kernel_afdo :=
  (uprev_kernel_afdo SOURCE_ROOT CHROOT_SOURCE_ROOT json_load run error_text).

Lemma afdo_step_returns item result (fs fs' : FS) result' :
  step item result fs = (inr result', fs') ->
  exists rec, record item = Some rec /\ modified result' = modified result ++ [rec].
Proof.
  destruct item as [version version_info]. unfold afdo_step, afdo_record. simpl.
  destruct (version_info !! "name") as [name|]; [|discriminate].
  unfold bind at 1.
  destruct (Patch.patch_ebuild_vars _ _ fs) as [[e|[]] fs1]; [discriminate|].
  unfold bind at 1.
  destruct (regenerate_manifest run error_text _ fs1) as [[e|[]] fs2]; [discriminate|].
  intros [= <- <-]. by eexists.
Qed.

Lemma afdo_loop_returns items result (fs fs' : FS) result' :
  loop items result fs = (inr result', fs') ->
  exists recs,
    Forall2 (fun item rec => record item = Some rec) items recs
    /\ modified result' = modified result ++ recs.
Proof.
  revert result fs. induction items as [|item items IH]; intros result fs; simpl.
  - intros [= <- <-]. exists []. split; [constructor|by rewrite app_nil_r].
  - unfold bind at 1. destruct (step item result fs) as [[e|r1] fs1] eqn:Hstep; [discriminate|].
    intros Hloop. apply afdo_step_returns in Hstep as (rec & Hrec & Hmod).
    apply IH in Hloop as (recs & Hrecs & Hmods).
    exists (rec :: recs). split; [by constructor|].
    rewrite Hmods, Hmod. by rewrite <- app_assoc.
Qed.

(** X25: a run that returns has added one record per kernel version of
    [kernel_afdo.json], in the order of the file: the profile name as version
    and the files [<version>-9999.ebuild; Manifest] of that kernel's
    directory. *)
Theorem kernel_afdo_one_record_per_version (fs fs' : FS) text versions result :
  fs !! os_path.join SOURCE_ROOT
          ["src"; "third_party"; "toolchain-utils"; "afdo_metadata"; "kernel_afdo.json"]
    = Some text ->
  json_load text = inr versions ->
  uprev_kernel_afdo fs = (inr result, fs') ->
  Forall2 (fun item rec =>
             exists name,
               item.2 !! "name" = Some name
               /\ rec = {| new_version := name;
                           files := [kernel_ebuild_path SOURCE_ROOT item.1;
                                     kernel_manifest_path SOURCE_ROOT item.1] |})
    versions (modified result)
  /\ uprevved result = negb (bool_decide (versions = [])).
Proof.
  intros Hfile Hjson. unfold KernelAfdo.uprev_kernel_afdo, bind, ReadFile.
  rewrite Hfile, Hjson. intros Hloop.
  apply afdo_loop_returns in Hloop as (recs & Hrecs & Hmod). simpl in Hmod. subst recs.
  split.
  - eapply Forall2_impl; [exact Hrecs|]. intros item rec. unfold afdo_record.
    destruct (item.2 !! "name") as [name|]; [|discriminate].
    intros [= <-]. by exists name.
  - unfold uprevved. destruct Hrecs; [reflexivity|].
    by rewrite bool_decide_eq_false_2.
Qed.

(** X26: a failing manifest run for the first kernel ends the call with
    [EbuildManifestError] naming the chroot path of the ebuild; the ebuild has
    already been patched, and this is not undone. *)
Theorem kernel_afdo_manifest_failure (fs fs1 fs' : FS) text version info name rest stderr :
  fs !! os_path.join SOURCE_ROOT
          ["src"; "third_party"; "toolchain-utils"; "afdo_metadata"; "kernel_afdo.json"]
    = Some text ->
  json_load text = inr ((version, info) :: rest) ->
  info !! "name" = Some name ->
  Patch.patch_ebuild_vars (kernel_ebuild_path SOURCE_ROOT version)
    {[ "AFDO_PROFILE_VERSION" := name ]} fs = (inr tt, fs1) ->
  run ["ebuild"; kernel_chroot_ebuild_path CHROOT_SOURCE_ROOT version; "manifest"; "--force"]
    fs1 = (inl (RunCommandError stderr), fs') ->
  uprev_kernel_afdo fs
  = (inl (EbuildManifestError
            ("Error encountered when regenerating the manifest for ebuild: "
             +:+ kernel_chroot_ebuild_path CHROOT_SOURCE_ROOT version +:+ chr LF
             +:+ error_text stderr)), fs').
Proof.
  intros Hfile Hjson Hname Hpatch Hrun.
  unfold KernelAfdo.uprev_kernel_afdo, bind at 1, ReadFile. rewrite Hfile, Hjson.
  simpl. unfold bind at 1. unfold afdo_step. rewrite Hname.
  unfold bind at 1. rewrite Hpatch.
  unfold bind at 1. unfold regenerate_manifest. by rewrite Hrun.
Qed.
End KernelAfdo.
End KernelAfdoFacts.

Module AndroidFacts.
Import PyStr PyLines Android.
Section Android.
Variable Chroot : Type.
Variable get_enter_args : Chroot -> list string.
Variable run_mark : list string -> list string -> exn + string.
Variable run_emerge : list string -> list string -> exn + unit.

Local Abbreviation uprev_android := (uprev_android Chroot get_enter_args run_mark run_emerge).
Local Abbreviation checks := (emerge_checks Chroot get_enter_args run_emerge).

Lemma checks_pinned before target after atom chroot stderr :
  Forall (fun t => run_emerge (emerge_command t atom) (get_enter_args chroot) = inr tt)
    before ->
  run_emerge (emerge_command target atom) (get_enter_args chroot)
    = inl (RunCommandError stderr) ->
  checks (before ++ target :: after) atom chroot = inl (AndroidIsPinnedUprevError atom).
Proof.
  intros Hall Hfail. induction Hall as [|t ts Ht _ IH]; simpl.
  - unfold emerge_command in Hfail. by rewrite Hfail.
  - unfold emerge_command in Ht. by rewrite Ht.
Qed.

Lemma checks_pass targets atom chroot :
  Forall (fun t => run_emerge (emerge_command t atom) (get_enter_args chroot) = inr tt)
    targets ->
  checks targets atom chroot = inr tt.
Proof.
  intros Hall. induction Hall as [|t ts Ht _ IH]; [reflexivity|].
  simpl. unfold emerge_command in Ht. by rewrite Ht.
Qed.

(** X27: the new atom is the text after the first [=] of the last output line;
    it is returned when the emerge check passes for every build target. *)
Theorem uprev_android_returns_atom tracking_branch android_package
    android_build_branch chroot build_targets android_version stdout atom :
  run_mark (mark_command tracking_branch android_package android_build_branch
              (Some build_targets) android_version) (get_enter_args chroot) = inr stdout ->
  atom_of_output stdout = Some atom ->
  atom <> EmptyString ->
  Forall (fun t => run_emerge (emerge_command t atom) (get_enter_args chroot) = inr tt)
    build_targets ->
  uprev_android tracking_branch android_package android_build_branch chroot
    (Some build_targets) android_version = inr (Some atom).
Proof.
  intros Hrun Hatom Hne Hall.
  assert (truthy (Some atom) = true) as Ht by (by destruct atom).
  unfold Android.uprev_android. rewrite Hrun, Hatom, Ht. simpl.
  by rewrite checks_pass.
Qed.

(** X28: the first build target whose emerge check fails turns the call into
    [AndroidIsPinnedUprevError] carrying the new atom; the targets after it
    are not checked. *)
Theorem uprev_android_pinned tracking_branch android_package
    android_build_branch chroot android_version stdout atom before target after stderr :
  run_mark (mark_command tracking_branch android_package android_build_branch
              (Some (before ++ target :: after)) android_version) (get_enter_args chroot)
    = inr stdout ->
  atom_of_output stdout = Some atom ->
  atom <> EmptyString ->
  Forall (fun t => run_emerge (emerge_command t atom) (get_enter_args chroot) = inr tt)
    before ->
  run_emerge (emerge_command target atom) (get_enter_args chroot)
    = inl (RunCommandError stderr) ->
  uprev_android tracking_branch android_package android_build_branch chroot
    (Some (before ++ target :: after)) android_version
  = inl (AndroidIsPinnedUprevError atom).
Proof.
  intros Hrun Hatom Hne Hall Hfail.
  assert (truthy (Some atom) = true) as Ht by (by destruct atom).
  unfold Android.uprev_android. rewrite Hrun, Hatom, Ht. simpl.
  by rewrite (checks_pinned before target after atom chroot stderr).
Qed.
End Android.
End AndroidFacts.

(** ** The properties at concrete inputs *)

Module FileWitnesses.
Import PyStr Patch Lines Scenario MoreScenario.








Lemma register_then_dispatch_witness :
  exists reg,
    Registry.uprevs_versioned_package "afdo/kernel-profiles" = inr reg
    /\ Registry.uprev_versioned_package (reg second_handler {[ "afdo/kernel-profiles" := first_handler ]}).1
         (Some {| cp := "afdo/kernel-profiles" |}) tt tt tt
       = second_handler tt tt tt.
Proof.
  destruct (RegistryMore.register_then_dispatch "afdo/kernel-profiles" second_handler
              {[ "afdo/kernel-profiles" := first_handler ]} tt tt tt) as (reg & H1 & H2 & _).
  - discriminate.
  - by exists reg.
Defined.


Lemma pinned_uprev_missing_pin_witness :
  run_pin PinScenario.manifest_tool no_pin
  = (inl (OSError (os_path.join PinScenario.SOURCE_ROOT [PinScenario.version_pin_path])),
     no_pin).
Proof.
  apply (PinMore.pinned_uprev_missing_pin PinScenario.SOURCE_ROOT PinScenario.SOURCE_ROOT
           unit PinScenario.manifest_tool PinScenario.package_path
           PinScenario.version_pin_path tt no_pin "/cros/overlay/foo/foo-1.2.3.ebuild").
  - vm_compute; reflexivity.
  - vm_compute; reflexivity.
Defined.


End FileWitnesses.

Module CoordinatorWitnesses.
Import PyStr Patch Lines Scenario MoreScenario ChromeScenario.

Lemma mock_uprev_returns package : returns MockManager.uprev package.
Proof. intros w. by eexists _, _. Qed.

Lemma uprev_chrome_uprevs_followers_witness :
  exists result st',
    run_chrome MockManager.uprev start = (inr result, st')
    /\ Chrome.calls _ st' = Chrome.calls _ start ++ CHROME_CP :: OTHER_CHROME_PACKAGES
    /\ modified result
       = [ {| new_version := "84.0.4147.0";
              files := MockManager.ebuilds (Chrome.world _ st') |} ].
Proof.
  apply (ChromeMore.uprev_chrome_uprevs_followers unit unit CHROME_CP OTHER_CHROME_PACKAGES
           MockManager.t MockManager.version_of_refs (MockManager.make ∅) MockManager.uprev
           MockManager.ebuilds tt [tag] tt start "84.0.4147.0"
           (MockManager.uprev CHROME_CP
              (MockManager.make ∅ "84.0.4147.0" tt tt MockManager.blank)).2).
  - reflexivity.
  - reflexivity.
  - repeat (apply List.Forall_cons; [apply mock_uprev_returns|]). apply List.Forall_nil.
Defined.

Lemma uprev_chrome_follower_raises_witness :
  exists st',
    run_chrome uprev_icu_fails start = (inl (RunCommandError "icu"), st')
    /\ Chrome.calls _ st'
       = Chrome.calls _ start
         ++ CHROME_CP :: ["chromeos-base/chromium-source"] ++ ["chromeos-base/chrome-icu"].
Proof.
  apply (ChromeMore.uprev_chrome_follower_raises unit unit CHROME_CP OTHER_CHROME_PACKAGES
           MockManager.t MockManager.version_of_refs (MockManager.make ∅) uprev_icu_fails
           MockManager.ebuilds tt [tag] tt start "84.0.4147.0"
           (MockManager.uprev CHROME_CP
              (MockManager.make ∅ "84.0.4147.0" tt tt MockManager.blank)).2
           ["chromeos-base/chromium-source"] "chromeos-base/chrome-icu" []).
  - reflexivity.
  - reflexivity.
  - reflexivity.
  - apply List.Forall_cons; [|apply List.Forall_nil]. intros w. by eexists _, _.
  - intros w. by eexists.
Defined.

Lemma generate_needs_one_build_config_witness :
  Generate._generate_platform_c_files "/cros" "/mnt/host/source" unit (fun _ => [])
    all_three (fun _ => "config") no_build_config tt ∅
  = (inr [], ∅).
Proof.
  rewrite (GenerateMore.generate_needs_one_build_config "/cros" "/mnt/host/source" unit
             (fun _ => []) all_three (fun _ => "config") no_build_config tt ∅).
  - reflexivity.
  - vm_compute. discriminate.
Defined.


Lemma reef_root_ok :
  Replicate._get_private_overlay_package_root "/cros" (fun _ => "ref") reef_ref
    "chromeos-base/chromeos-config-bsp" = inr reef_root.
Proof. vm_compute. reflexivity. Qed.

Lemma replicate_missing_config_witness :
  Replicate.replicate_private_config "/cros" "/mnt/host/source" unit (fun _ => [])
    all_three (fun _ => "config") (fun _ => "ref") (fun _ => "refs")
    (fun _ => inr GenerateScenario.config) copy_rules [reef_ref] tt ∅
  = (inl (ValueError ("Expected ReplicationConfig missing at "
                      +:+ os_path.join reef_root ["replication_config.jsonpb"])), ∅).
Proof.
  apply (ReplicateFacts.replicate_missing_config "/cros" "/mnt/host/source" unit
           (fun _ => []) all_three (fun _ => "config") (fun _ => "ref") (fun _ => "refs")
           (fun _ => inr GenerateScenario.config) copy_rules reef_ref tt ∅ reef_root).
  - exact reef_root_ok.
  - reflexivity.
Defined.

Lemma generate_after_copy :
  Generate._generate_platform_c_files "/cros" "/mnt/host/source" unit (fun _ => [])
    all_three (fun _ => "config") GenerateScenario.config tt (copy_rules GenerateScenario.config reef_fs).2
  = (inr ["overlay/files/config.c"; "overlay/files/ec_config.c"; "overlay/files/ec_config.h"],
     (Generate._generate_platform_c_files "/cros" "/mnt/host/source" unit (fun _ => [])
        all_three (fun _ => "config") GenerateScenario.config tt
        (copy_rules GenerateScenario.config reef_fs).2).2).
Proof.
  apply injective_projections; [vm_compute; reflexivity|reflexivity].
Qed.

Lemma replicate_result_witness :
  (replicate reef_fs).1
  = inr {| modified :=
             [ {| new_version := "deadbeef";
                  files := ["/cros/overlay/files/build_config.json";
                            "/cros/overlay/files/config.c";
                            "/cros/overlay/files/ec_config.c";
                            "/cros/overlay/files/ec_config.h"] |} ] |}.
Proof.
  unfold replicate.
  rewrite (ReplicateFacts.replicate_result "/cros" "/mnt/host/source" unit
             (fun _ => []) all_three (fun _ => "config") (fun _ => "ref") (fun _ => "refs")
             (fun _ => inr GenerateScenario.config) copy_rules reef_ref tt reef_fs
             (copy_rules GenerateScenario.config reef_fs).2 _ reef_root "{}"
             GenerateScenario.config _ reef_root_ok eq_refl eq_refl eq_refl generate_after_copy).
  vm_compute. reflexivity.
Defined.
End CoordinatorWitnesses.

Module LookupWitnesses.
Import PyStr PyLines Patch Lines MoreScenario.

Lemma eve_version :
  Versions.board_has_version dependencies split_cpv "eve" "6417892".
Proof. eexists _, _. repeat split; vm_compute; reflexivity. Qed.

Lemma kukui_version :
  Versions.board_has_version dependencies split_cpv "kukui" "6417892".
Proof. eexists _, _. repeat split; vm_compute; reflexivity. Qed.

Lemma reef_version :
  Versions.board_has_version dependencies split_cpv "reef" "6400000".
Proof. eexists _, _. repeat split; vm_compute; reflexivity. Qed.

Lemma android_version_unanimous_witness :
  Versions.determine_android_version dependencies split_cpv (Some ["eve"; "kukui"])
  = inr (Some "6417892").
Proof.
  apply (VersionFacts.android_version_unanimous dependencies split_cpv ["eve"; "kukui"]
           "6417892").
  - discriminate.
  - discriminate.
  - apply List.Forall_cons; [exact eve_version|].
    apply List.Forall_cons; [exact kukui_version|apply List.Forall_nil].
Defined.

Lemma android_version_mismatch_witness :
  Versions.determine_android_version dependencies split_cpv
    (Some (["eve"] ++ "reef" :: ["kukui"]))
  = inl (NoAndroidVersionError
           ("Different Android versions (" +:+ "6417892" +:+ " vs " +:+ "6400000"
            +:+ ") for " +:+ repr_list (["eve"] ++ "reef" :: ["kukui"]))).
Proof.
  apply (VersionFacts.android_version_mismatch dependencies split_cpv ["eve"] "reef"
           ["kukui"] "6417892" "6400000").
  - discriminate.
  - discriminate.
  - discriminate.
  - apply List.Forall_cons; [exact eve_version|apply List.Forall_nil].
  - exact reef_version.
Defined.

Lemma android_version_board_without_package_witness :
  Versions.determine_android_version dependencies split_cpv
    (Some (["eve"] ++ "betty" :: ["reef"]))
  = inr None.
Proof.
  apply (VersionFacts.android_version_board_without_package dependencies split_cpv
           ["eve"] "betty" ["reef"] "6417892").
  - discriminate.
  - apply List.Forall_cons; [exact eve_version|apply List.Forall_nil].
  - reflexivity.
Defined.

Lemma chrome_version_before_underscore_witness :
  exists v,
    Versions.determine_chrome_version best_visible "chromeos-base/chromeos-chrome" eve
    = inr (Some v)
    /\ lacks "_" v
    /\ ("78.0.3877.4_rc" = v \/ exists rest, "78.0.3877.4_rc" = v +:+ "_" +:+ rest).
Proof.
  apply (VersionFacts.chrome_version_before_underscore best_visible
           "chromeos-base/chromeos-chrome" eve
           {| version := Some "78.0.3877.4_rc-r1"; version_no_rev := Some "78.0.3877.4_rc" |}).
  - reflexivity.
  - reflexivity.
Defined.

Example chrome_version_ex :
  Versions.determine_chrome_version best_visible "chromeos-base/chromeos-chrome" eve
  = inr (Some "78.0.3877.4").
Proof. vm_compute. reflexivity. Qed.

Lemma firmware_fields_are_single_lines_witness :
  main (Firmware._find_firmware_versions updater_output) = Some "Google_Reef.9042.87.1"
  /\ lacks LF "Google_Reef.9042.87.1"
  /\ lstrip "Google_Reef.9042.87.1" = "Google_Reef.9042.87.1".
Proof.
  assert (main (Firmware._find_firmware_versions updater_output)
          = Some "Google_Reef.9042.87.1") as H by (vm_compute; reflexivity).
  split; [exact H|].
  apply (FirmwareFacts.firmware_fields_are_single_lines updater_output main); [|exact H].
  apply list_elem_of_further, list_elem_of_here.
Defined.

Lemma firmware_versions_keyed_by_model_witness :
  model {| model := Some "pyro"; main := Some "Google_Pyro.9042.87.1";
           main_rw := Some "Google_Pyro.9042.110.0"; ec := None; ec_rw := None |}
  = Some "pyro".
Proof.
  apply (FirmwareFacts.firmware_versions_keyed_by_model true (fun _ => inr updater_output)
           reef
           (Firmware.collect_firmware (split_blank_line updater_output) ∅)).
  - reflexivity.
  - vm_compute. reflexivity.
Defined.

Lemma key_id_without_tool_witness :
  CrosConfig.get_models true (fun _ => false) config_path key_id_run reef = inr None
  /\ CrosConfig.get_key_id true (fun _ => false) config_path key_id_run reef "reef"
     = inl TypeError.
Proof.
  apply (CrosConfigFacts.key_id_without_tool true (fun _ => false) config_path key_id_run
           reef "reef"); reflexivity.
Defined.


Lemma kernel_afdo_runs :
  kernel_afdo manifest_ok afdo_fs = (inr afdo_expected, (kernel_afdo manifest_ok afdo_fs).2).
Proof. apply injective_projections; [vm_compute; reflexivity|reflexivity]. Qed.

Lemma kernel_afdo_one_record_per_version_witness :
  Forall2 (fun item rec =>
             exists name,
               item.2 !! "name" = Some name
               /\ rec = {| new_version := name;
                           files := [KernelAfdo.kernel_ebuild_path "/cros" item.1;
                                     KernelAfdo.kernel_manifest_path "/cros" item.1] |})
    afdo_versions (modified afdo_expected)
  /\ uprevved afdo_expected = negb (bool_decide (afdo_versions = [])).
Proof.
  apply (KernelAfdoFacts.kernel_afdo_one_record_per_version "/cros" "/mnt/host/source"
           (fun _ => inr afdo_versions) manifest_ok (fun stderr => stderr)
           afdo_fs (kernel_afdo manifest_ok afdo_fs).2 "{}" afdo_versions afdo_expected).
  - vm_compute; reflexivity.
  - reflexivity.
  - exact kernel_afdo_runs.
Defined.

Lemma kernel_patch_runs :
  patch_ebuild_vars (KernelAfdo.kernel_ebuild_path "/cros" "chromeos-kernel-4_4")
    {[ "AFDO_PROFILE_VERSION" := "R84-13080.0-1590399778" ]} afdo_fs
  = (inr tt,
     (patch_ebuild_vars (KernelAfdo.kernel_ebuild_path "/cros" "chromeos-kernel-4_4")
        {[ "AFDO_PROFILE_VERSION" := "R84-13080.0-1590399778" ]} afdo_fs).2).
Proof. apply injective_projections; [vm_compute; reflexivity|reflexivity]. Qed.

Lemma kernel_afdo_manifest_failure_witness :
  (kernel_afdo manifest_fails afdo_fs).1
  = inl (EbuildManifestError
           ("Error encountered when regenerating the manifest for ebuild: "
            +:+ KernelAfdo.kernel_chroot_ebuild_path "/mnt/host/source" "chromeos-kernel-4_4"
            +:+ chr LF +:+ "no digest")).
Proof.
  unfold kernel_afdo.
  rewrite (KernelAfdoFacts.kernel_afdo_manifest_failure "/cros" "/mnt/host/source"
             (fun _ => inr afdo_versions) manifest_fails (fun stderr => stderr)
             afdo_fs _ _ "{}" "chromeos-kernel-4_4"
             {[ "name" := "R84-13080.0-1590399778" ]} "R84-13080.0-1590399778" [] "no digest"
             ltac:(vm_compute; reflexivity) eq_refl ltac:(vm_compute; reflexivity)
             kernel_patch_runs eq_refl).
  reflexivity.
Defined.

Lemma new_atom_found : forall command args stdout,
  mark_output command args = inr stdout -> Android.atom_of_output stdout = Some new_atom.
Proof. intros command args stdout [= <-]. vm_compute. reflexivity. Qed.

Lemma uprev_android_returns_atom_witness :
  MoreScenario.uprev_android [eve] = inr (Some new_atom).
Proof.
  apply (AndroidFacts.uprev_android_returns_atom unit (fun _ => []) mark_output
           emerge_not_on_reef "git_rvc-release" "android-vm-rvc" "git_rvc-release" tt [eve]
           None (ln "Updating Android" +:+ ln "ANDROID_ATOM=chromeos-base/android-vm-rvc-6417892-r1")).
  - reflexivity.
  - vm_compute; reflexivity.
  - discriminate.
  - apply List.Forall_cons; [reflexivity|apply List.Forall_nil].
Defined.

Lemma uprev_android_pinned_witness :
  MoreScenario.uprev_android ([eve] ++ reef :: []) = inl (AndroidIsPinnedUprevError new_atom).
Proof.
  apply (AndroidFacts.uprev_android_pinned unit (fun _ => []) mark_output
           emerge_not_on_reef "git_rvc-release" "android-vm-rvc" "git_rvc-release" tt
           None (ln "Updating Android" +:+ ln "ANDROID_ATOM=chromeos-base/android-vm-rvc-6417892-r1")
           new_atom [eve] reef [] "masked").
  - reflexivity.
  - vm_compute; reflexivity.
  - discriminate.
  - apply List.Forall_cons; [reflexivity|apply List.Forall_nil].
  - reflexivity.
Defined.
End LookupWitnesses.
